(** * LearnovateX frontend: storage accessors and the offline-aware HTTP client

    A shallow embedding of [frontend/src/lib/utils.js] (the token and user
    accessors over [localStorage] / [sessionStorage]) and of
    [frontend/src/lib/axios.js] (the axios instance with its request and
    response interceptors: bearer token, offline cache, retry).

    Browser state is threaded explicitly: a [World] holds the two storage
    areas, the user agent string, the module-level [retryConfig] object and
    a trace of the observable events (console warnings, network dispatches,
    timer delays).  JavaScript exceptions are results of an error monad, so
    that [try { ... } catch] is a combinator and an uncaught exception is
    visible in the type. *)

From stdpp Require Import base option strings list gmap pretty.
From Stdlib Require Import ZArith Lia Ascii String.

Set Warnings "-register-all".

Open Scope string_scope.
Open Scope Z_scope.

(** ** JavaScript values and built-ins *)

(** Values that reach the modelled code: tokens, user profiles, response
    payloads and whatever [JSON.parse] returns.  Numbers are kept as integers:
    the only number the client computes with is a millisecond timestamp. *)
Inductive jsval :=
| JUndefined
| JNull
| JBool (b : bool)
| JNum (n : Z)
| JStr (s : string)
| JArr (elems : list jsval)
| JObj (props : list (string * jsval)).

(** Exceptions the platform can raise under the modelled code. *)
Inductive Exn :=
| SecurityError        (* storage access denied *)
| QuotaExceededError   (* setItem: storage full *)
| SyntaxError          (* JSON.parse on malformed text *)
| TypeError.           (* property read on null / undefined, JSON.stringify *)

Inductive Res (A : Type) :=
| Ok (a : A)
| Throw (e : Exn).

Arguments Ok {A} a.
Arguments Throw {A} e.

(** Built-ins whose algorithms are the platform's, not the repository's.
    [JSON_stringify] is used only as the value argument of [setItem], so it
    stands for the JSON text after [setItem]'s string coercion. *)
Class Runtime := {
  JSON_stringify : jsval -> Res string;
  JSON_parse : string -> Res jsval;
  StringToNumber : string -> option Z;     (* None is NaN *)
  ObjectToNumber : jsval -> option Z;      (* arrays and objects *)
  ObjectToString : jsval -> string         (* String(v) for a non-string v *)
}.

(** [if (v)] *)
Definition truthy (v : jsval) : bool :=
  match v with
  | JUndefined | JNull => false
  | JBool b => b
  | JNum n => negb (n =? 0)
  | JStr s => negb (String.eqb s "")
  | JArr _ | JObj _ => true
  end.

(** [if (s)] for the result of [getItem]: a string or null. *)
Definition truthy_item (o : option string) : bool :=
  match o with
  | Some s => negb (String.eqb s "")
  | None => false
  end.

(** [v.name] *)
Fixpoint assoc (name : string) (props : list (string * jsval)) : jsval :=
  match props with
  | [] => JUndefined
  | (k, v) :: rest => if String.eqb k name then v else assoc name rest
  end.

Definition get_prop (v : jsval) (name : string) : Res jsval :=
  match v with
  | JUndefined | JNull => Throw TypeError
  | JObj props => Ok (assoc name props)
  | _ => Ok JUndefined
  end.

Section WithRuntime.
Context `{Runtime}.

(** The numeric coercion applied by [-]. *)
Definition ToNumber (v : jsval) : option Z :=
  match v with
  | JUndefined => None
  | JNull => Some 0
  | JBool b => Some (if b then 1 else 0)
  | JNum n => Some n
  | JStr s => StringToNumber s
  | JArr _ | JObj _ => ObjectToNumber v
  end.

(** The string coercion applied by [setItem] to its value. *)
Definition ToString (v : jsval) : string :=
  match v with
  | JStr s => s
  | _ => ObjectToString v
  end.

End WithRuntime.

(** [hay.includes(needle)] *)
Fixpoint includes (needle hay : string) : bool :=
  String.prefix needle hay ||
  match hay with
  | EmptyString => false
  | String _ rest => includes needle rest
  end.

Definition lower_ascii (c : ascii) : ascii :=
  let n := nat_of_ascii c in
  if ((65 <=? n) && (n <=? 90))%nat then ascii_of_nat (n + 32) else c.

Fixpoint lower (s : string) : string :=
  match s with
  | EmptyString => EmptyString
  | String c rest => String (lower_ascii c) (lower rest)
  end.

(** [/a|b|.../i.test(s)] for literal alternatives. *)
Definition test_any_i (alts : list string) (s : string) : bool :=
  existsb (fun a => includes (lower a) (lower s)) alts.

(** ** Browser state *)

(** A storage area.  [blocked]: every access raises SecurityError (storage
    disabled).  [fits]: whether the area can hold a given content; a
    [setItem] that would exceed it raises QuotaExceededError. *)
Record Storage := mkStorage {
  items : gmap string string;
  blocked : bool;
  fits : gmap string string -> bool
}.

Definition getItem (k : string) (st : Storage) : Res (option string) :=
  if blocked st then Throw SecurityError else Ok (items st !! k).

Definition setItem (k v : string) (st : Storage) : Res unit * Storage :=
  if blocked st then (Throw SecurityError, st)
  else if fits st (<[k:=v]> (items st))
       then (Ok tt, mkStorage (<[k:=v]> (items st)) (blocked st) (fits st))
       else (Throw QuotaExceededError, st).

Definition removeItem (k : string) (st : Storage) : Res unit * Storage :=
  if blocked st then (Throw SecurityError, st)
  else (Ok tt, mkStorage (delete k (items st)) (blocked st) (fits st)).

(** A reference to the module-level object [retryConfig]. *)
Inductive Ref := RetryConfigRef.

(** The invocation config of a request; [headers] is [config.headers],
    [retry] is the reference stored by [config.retry = retryConfig]. *)
Record Config := mkConfig {
  method : string;
  url : string;
  headers : gmap string string;
  body : jsval;
  retry : option Ref
}.

(** [response.config] is absent on the synthetic response built from the
    offline cache. *)
Record Response := mkResponse {
  data : jsval;
  status : Z;
  resp_config : option Config
}.

Inductive Event :=
| Warn (msg : string) (e : Exn)       (* console.warn(msg, error) *)
| Dispatch (config : Config)          (* the request leaves for the network *)
| Delay (ms : Z).                     (* setTimeout(..., ms) elapsed *)

(** The module-level object [retryConfig]; every config refers to this one
    object, so its [retries] field is shared by all requests. *)
Record RetryConfig := mkRetryConfig {
  retries : nat;
  retryDelay : Z
}.

Record World := mkWorld {
  localStorage : Storage;
  sessionStorage : Storage;
  userAgent : string;
  retryConfig : RetryConfig;
  trace : list Event
}.

(** ** The effect monad: state, exceptions, try/catch *)

Definition M (A : Type) : Type := World -> Res A * World.

Definition ret {A} (a : A) : M A := fun w => (Ok a, w).

Definition bind {A B} (m : M A) (k : A -> M B) : M B :=
  fun w =>
    match m w with
    | (Ok a, w') => k a w'
    | (Throw e, w') => (Throw e, w')
    end.

Definition throw {A} (e : Exn) : M A := fun w => (Throw e, w).

Definition try_catch {A} (m : M A) (handler : Exn -> M A) : M A :=
  fun w =>
    match m w with
    | (Ok a, w') => (Ok a, w')
    | (Throw e, w') => handler e w'
    end.

Definition lift {A} (r : Res A) : M A := fun w => (r, w).

Notation "'do' x <- m ; k" := (bind m (fun x => k))
  (at level 10, x name, m at level 100, k at level 200).

Notation "m ;; k" := (bind m (fun _ => k))
  (at level 100, k at level 200, right associativity).

Definition emit (e : Event) : M unit :=
  fun w => (Ok tt, mkWorld (localStorage w) (sessionStorage w) (userAgent w)
                            (retryConfig w) (trace w ++ [e])).

Definition console_warn (msg : string) (e : Exn) : M unit := emit (Warn msg e).

Definition localStorage_getItem (k : string) : M (option string) :=
  fun w => (getItem k (localStorage w), w).

Definition sessionStorage_getItem (k : string) : M (option string) :=
  fun w => (getItem k (sessionStorage w), w).

Definition localStorage_setItem (k v : string) : M unit :=
  fun w => let (r, st) := setItem k v (localStorage w) in
           (r, mkWorld st (sessionStorage w) (userAgent w) (retryConfig w) (trace w)).

Definition sessionStorage_setItem (k v : string) : M unit :=
  fun w => let (r, st) := setItem k v (sessionStorage w) in
           (r, mkWorld (localStorage w) st (userAgent w) (retryConfig w) (trace w)).

Definition localStorage_removeItem (k : string) : M unit :=
  fun w => let (r, st) := removeItem k (localStorage w) in
           (r, mkWorld st (sessionStorage w) (userAgent w) (retryConfig w) (trace w)).

Definition sessionStorage_removeItem (k : string) : M unit :=
  fun w => let (r, st) := removeItem k (sessionStorage w) in
           (r, mkWorld (localStorage w) st (userAgent w) (retryConfig w) (trace w)).

(** ** lib/utils.js *)

Definition mobile_agent (agent : string) : bool :=
  test_any_i ["Android"; "webOS"; "iPhone"; "iPad"; "iPod";
              "BlackBerry"; "IEMobile"; "Opera Mini"] agent.

Definition isMobile : M bool :=
  fun w => (Ok (mobile_agent (userAgent w)), w).

Definition storage_warning : string := "Storage not available:".

Section Utils.
Context `{Runtime}.

Definition setAuthToken_try (token : jsval) : M unit :=
  if truthy token then
    localStorage_setItem "token" (ToString token) ;;
    do mobile <- isMobile ;
    if mobile then sessionStorage_setItem "token" (ToString token) else ret tt
  else
    localStorage_removeItem "token" ;;
    sessionStorage_removeItem "token".

Definition setAuthToken (token : jsval) : M unit :=
  try_catch (setAuthToken_try token) (console_warn storage_warning).

Definition getAuthToken_try : M (option string) :=
  do token <- localStorage_getItem "token" ;
  if negb (truthy_item token) then
    do mobile <- isMobile ;
    if mobile then sessionStorage_getItem "token" else ret token
  else ret token.

Definition getAuthToken : M (option string) :=
  try_catch getAuthToken_try
            (fun e => console_warn storage_warning e ;; ret None).

Definition isAuthenticated : M bool :=
  do token <- getAuthToken ;
  ret (truthy_item token).

Definition clearAuth_try : M unit :=
  localStorage_removeItem "token" ;;
  localStorage_removeItem "user" ;;
  sessionStorage_removeItem "token" ;;
  sessionStorage_removeItem "user".

Definition clearAuth : M unit :=
  try_catch clearAuth_try (console_warn storage_warning).

Definition setUser_try (user : jsval) : M unit :=
  do s <- lift (JSON_stringify user) ;
  localStorage_setItem "user" s ;;
  do mobile <- isMobile ;
  if mobile
  then (do s' <- lift (JSON_stringify user) ; sessionStorage_setItem "user" s')
  else ret tt.

Definition setUser (user : jsval) : M unit :=
  try_catch (setUser_try user) (console_warn storage_warning).

Definition getUser_try : M jsval :=
  do user <- localStorage_getItem "user" ;
  do user <- (if negb (truthy_item user) then
                do mobile <- isMobile ;
                if mobile then sessionStorage_getItem "user" else ret user
              else ret user) ;
  match user with
  | Some s => if truthy_item user then lift (JSON_parse s) else ret JNull
  | None => ret JNull
  end.

Definition getUser : M jsval :=
  try_catch getUser_try
            (fun e => console_warn storage_warning e ;; ret JNull).

End Utils.

(** ** lib/axios.js *)

(** What a promise in the interceptor chain is rejected with. *)
Inductive Rejection :=
| OfflineCached (response : Response)
    (* { response: {data, status: 200}, message: "Offline cached response",
         isOfflineCache: true } *)
| OfflineNoCache
    (* { message: "No internet connection and no cached data available",
         isOffline: true } *)
| Uncaught (e : Exn)
    (* an exception that escaped an interceptor *)
| AxiosError (msg : string) (config : Config) (code : option string)
             (response : option Response).
    (* the error axios builds when the dispatch fails *)

Definition isOfflineCache (error : Rejection) : bool :=
  match error with OfflineCached _ => true | _ => false end.

Definition isOffline (error : Rejection) : bool :=
  match error with OfflineNoCache => true | _ => false end.

Definition error_config (error : Rejection) : option Config :=
  match error with AxiosError _ config _ _ => Some config | _ => None end.

Definition error_code (error : Rejection) : option string :=
  match error with AxiosError _ _ code _ => code | _ => None end.

Definition error_response (error : Rejection) : option Response :=
  match error with
  | OfflineCached response => Some response
  | AxiosError _ _ _ response => response
  | _ => None
  end.

(** [error.message], where the application sets or receives it. *)
Definition message (error : Rejection) : option string :=
  match error with
  | OfflineCached _ => Some "Offline cached response"
  | OfflineNoCache => Some "No internet connection and no cached data available"
  | AxiosError msg _ _ _ => Some msg
  | Uncaught _ => None
  end.

(** What the network answers to one dispatch. *)
Record Answer := mkAnswer {
  ans_status : Z;
  ans_data : jsval
}.

Inductive Reply :=
| Fulfilled (a : Answer)
| Failed (msg : string) (code : option string) (a : option Answer).

(** What the platform shows during one attempt of a request:
    [navigator.onLine] and [Date.now()] when the request interceptor runs,
    the network's reply, and the same two readings when the response
    interceptor runs. *)
Record Attempt := mkAttempt {
  onLine_request : bool;
  now_request : Z;
  reply : Reply;
  onLine_response : bool;
  now_response : Z
}.

Definition initial_retryConfig : RetryConfig :=
  {| retries := 3; retryDelay := 1000 |}.

Definition code_is (error : Rejection) (c : string) : bool :=
  match error_code error with
  | Some c' => String.eqb c' c
  | None => false
  end.

Definition retryCondition (error : Rejection) : bool :=
  code_is error "NETWORK_ERROR" ||
  code_is error "TIMEOUT" ||
  match error_response error with
  | Some response => 500 <=? status response
  | None => false
  end.

Definition DAY_MS : Z := 24 * 60 * 60 * 1000.

Definition cacheKey (config : Config) : string :=
  method config ++ "-" ++ url config.

Definition cache_item (config : Config) : string :=
  "api-cache-" ++ cacheKey config.

Definition isAuthEndpoint (config : Config) : bool :=
  includes "/auth/" (url config).

Definition bearer (token : string) : string := "Bearer " ++ token.

Definition set_Authorization (v : string) (config : Config) : Config :=
  mkConfig (method config) (url config) (<["Authorization" := v]> (headers config))
           (body config) (retry config).

Definition set_retry (config : Config) : Config :=
  mkConfig (method config) (url config) (headers config) (body config)
           (Some RetryConfigRef).

Definition get_retries : M nat := fun w => (Ok (retries (retryConfig w)), w).

Definition get_retryDelay : M Z := fun w => (Ok (retryDelay (retryConfig w)), w).

(** [config.retry.retries -= 1] on the one shared object. *)
Definition decrement_retries : M unit :=
  fun w => (Ok tt,
            mkWorld (localStorage w) (sessionStorage w) (userAgent w)
                    (mkRetryConfig (retries (retryConfig w) - 1)
                                   (retryDelay (retryConfig w)))
                    (trace w)).

Section Axios.
Context `{Runtime}.

(** [Date.now() - parsed.timestamp < 24 * 60 * 60 * 1000] *)
Definition fresh (now : Z) (timestamp : jsval) : bool :=
  match ToNumber timestamp with
  | Some t => now - t <? DAY_MS
  | None => false
  end.

(** [if (token) config.headers.Authorization = `Bearer ${token}`] *)
Definition attach_token (token : option string) (config : Config) : Config :=
  match token with
  | Some t => if truthy_item token then set_Authorization (bearer t) config
              else config
  | None => config
  end.

(** The body of [if (!isOnline() && !isAuthEndpoint)]: both exits reject. *)
Definition offline_branch (env : Attempt) (config : Config) : M Rejection :=
  do cached <- localStorage_getItem (cache_item config) ;
  do hit <-
    match cached with
    | Some text =>
        if truthy_item cached then
          do parsed <- lift (JSON_parse text) ;
          do timestamp <- lift (get_prop parsed "timestamp") ;
          if fresh (now_request env) timestamp then
            do d <- lift (get_prop parsed "data") ;
            ret (Some (OfflineCached (mkResponse d 200 None)))
          else ret None
        else ret None
    | None => ret None
    end ;
  match hit with
  | Some rejection => ret rejection
  | None => ret OfflineNoCache
  end.

(** The fulfilled handler of [interceptors.request]: [inl] is the config
    handed on to the dispatch, [inr] the value of [Promise.reject]. *)
Definition request_interceptor (env : Attempt) (config : Config)
  : M (Config + Rejection) :=
  do token <- getAuthToken ;
  let config := attach_token token config in
  let config := set_retry config in
  if negb (onLine_request env) && negb (isAuthEndpoint config) then
    do rejection <- offline_branch env config ;
    ret (inr rejection)
  else ret (inl config).

(** The response axios builds from the network's answer. *)
Definition response_of (c : Config) (a : Answer) : Response :=
  mkResponse (ans_data a) (ans_status a) (Some c).

(** The adapter: the request leaves, the network replies. *)
Definition dispatch (env : Attempt) (config : Config)
  : M (Response + Rejection) :=
  emit (Dispatch config) ;;
  ret match reply env with
      | Fulfilled a => inl (response_of config a)
      | Failed msg code a =>
          inr (AxiosError msg config code (option_map (response_of config) a))
      end.

Definition cache_warning : string := "Cache storage failed:".

(** The [try] block around the cache write. *)
Definition cache_write_try (config : Config) (cacheData : jsval) : M unit :=
  do text <- lift (JSON_stringify cacheData) ;
  localStorage_setItem (cache_item config) text.

(** The fulfilled handler of [interceptors.response]. *)
Definition on_fulfilled (env : Attempt) (response : Response) : M Response :=
  match resp_config response with
  | None => throw TypeError
  | Some config =>
      (if String.eqb (method config) "get" && onLine_response env then
         let cacheData :=
           JObj [("data", data response);
                 ("timestamp", JNum (now_response env))] in
         try_catch (cache_write_try config cacheData)
                   (console_warn cache_warning)
       else ret tt) ;;
      ret response
  end.

Inductive Outcome :=
| Resolved (response : Response)
| Rejected (error : Rejection)
| Pending.

Inductive Next :=
| Settle (o : Outcome)
| RetryWith (config : Config).

(** The rejected handler of [interceptors.response], up to the point where
    it calls [axiosInstance(config)] again. *)
Definition on_rejected (error : Rejection) : M Next :=
  match error with
  | OfflineCached response => ret (Settle (Resolved response))
  | _ =>
      match error_config error with
      | Some config =>
          do n <- get_retries ;
          if bool_decide (is_Some (retry config)) && (0 <? n)%nat
             && retryCondition error
          then
            decrement_retries ;;
            do ms <- get_retryDelay ;
            emit (Delay ms) ;;
            ret (RetryWith config)
          else ret (Settle (Rejected error))
      | None => ret (Settle (Rejected error))
      end
  end.

(** One pass through the interceptor chain, up to the decision of the
    response interceptor. *)
Definition attempt (env : Attempt) (config : Config) : World -> Next * World :=
  fun w =>
    let reject error w :=
      match on_rejected error w with
      | (Ok next, w') => (next, w')
      | (Throw e, w') => (Settle (Rejected (Uncaught e)), w')
      end in
    match request_interceptor env config w with
    | (Ok (inl config'), w1) =>
        match dispatch env config' w1 with
        | (Ok (inl response), w2) =>
            match on_fulfilled env response w2 with
            | (Ok response', w3) => (Settle (Resolved response'), w3)
            | (Throw e, w3) => (Settle (Rejected (Uncaught e)), w3)
            end
        | (Ok (inr error), w2) => reject error w2
        | (Throw e, w2) => reject (Uncaught e) w2
        end
    | (Ok (inr error), w1) => reject error w1
    | (Throw e, w1) => reject (Uncaught e) w1
    end.

(** [axiosInstance(config)] with the attempts numbered from [i]; [fuel]
    bounds the number of attempts. *)
Fixpoint request (fuel : nat) (env : nat -> Attempt) (i : nat)
                 (config : Config) (w : World) : Outcome * World :=
  match fuel with
  | O => (Pending, w)
  | S fuel' =>
      match attempt (env i) config w with
      | (Settle o, w') => (o, w')
      | (RetryWith config', w') => request fuel' env (S i) config' w'
      end
  end.

(** [axiosInstance(config)]: the shared retry counter bounds the attempts. *)
Definition axiosInstance (env : nat -> Attempt) (config : Config) (w : World)
  : Outcome * World :=
  request (S (retries (retryConfig w))) env 0 config w.

End Axios.

(** * Vocabulary of the statements *)

(** A call that returns to its caller whatever the state of the browser. *)
Definition never_throws {A} (m : M A) : Prop :=
  forall w, exists a, fst (m w) = Ok a.


(** The events a computation added, given the worlds before and after it. *)
Definition new_events (w w' : World) : list Event :=
  drop (List.length (trace w)) (trace w').

Definition dispatched (evs : list Event) : list Config :=
  omap (fun e => match e with Dispatch c => Some c | _ => None end) evs.

Definition delays (evs : list Event) : list Z :=
  omap (fun e => match e with Delay ms => Some ms | _ => None end) evs.


(** How writing the item [k := v] to a storage area fails, where it does:
    the area is unavailable, or it is full. *)
Definition write_fails (k v : string) (st : Storage) (e : Exn) : Prop :=
  (blocked st = true /\ e = SecurityError) \/
  (blocked st = false /\ fits st (<[k:=v]> (items st)) = false /\
   e = QuotaExceededError).


(** The world after [n] further calls of [getAuthToken]. *)
Fixpoint after_reads `{Runtime} (n : nat) (w : World) : World :=
  match n with
  | O => w
  | S n' => after_reads n' (snd (getAuthToken w))
  end.

(** Two worlds that differ at most in their trace and, in [localStorage],
    in items that are cache entries of [config]. *)
Definition same_but_cache (config : Config) (w w' : World) : Prop :=
  sessionStorage w' = sessionStorage w /\
  userAgent w' = userAgent w /\
  blocked (localStorage w') = blocked (localStorage w) /\
  fits (localStorage w') = fits (localStorage w) /\
  forall k, k <> cache_item config ->
            items (localStorage w') !! k = items (localStorage w) !! k.

(** What [getAuthToken] looks at. *)
Definition token_view (w : World) :=
  (blocked (localStorage w), items (localStorage w) !! "token",
   blocked (sessionStorage w), items (sessionStorage w) !! "token",
   userAgent w).

(** The value [getAuthToken] returns, as a function of what it looks at. *)
Definition token_of_view
  (v : bool * option string * bool * option string * string) : option string :=
  let '(local_blocked, local_token, session_blocked, session_token, agent) := v in
  if local_blocked then None
  else if truthy_item local_token then local_token
  else if mobile_agent agent
       then (if session_blocked then None else session_token)
       else local_token.

(** The config the request interceptor hands to the dispatch. *)
Definition prepared (w : World) (config : Config) : Config :=
  set_retry (attach_token (token_of_view (token_view w)) config).

(** The world once the request has left. *)
Definition sent (c : Config) (w : World) : World := snd (emit (Dispatch c) w).

(** The world when the response interceptor has scheduled a retry. *)
Definition retry_scheduled (w : World) : World :=
  snd (emit (Delay (retryDelay (retryConfig w))) (snd (decrement_retries w))).

Definition offline_outcome (r : Res Rejection) : Outcome :=
  match r with
  | Ok (OfflineCached response) => Resolved response
  | Ok error => Rejected error
  | Throw e => Rejected (Uncaught e)
  end.

(** The part of a config that is fixed over the attempts of one request,
    given the token [tok] that [getAuthToken] returns. *)
Definition carries (tok : option string) (config c : Config) : Prop :=
  method c = method config /\ url c = url config /\ body c = body config /\
  headers c = headers (attach_token tok config).

(** What one attempt does, whatever the platform and the network do. *)
Definition attempt_post (config : Config) (w : World)
                        (next : Next) (w' : World) (evs : list Event) : Prop :=
  same_but_cache config w w' /\
  (method config <> "get" -> localStorage w' = localStorage w) /\
  trace w' = (trace w ++ evs)%list /\
  (dispatched evs = [] \/ dispatched evs = [prepared w config]) /\
  match next with
  | Settle o =>
      o <> Pending /\ retryConfig w' = retryConfig w /\ delays evs = []
  | RetryWith c =>
      c = prepared w config /\
      dispatched evs = [c] /\
      delays evs = [retryDelay (retryConfig w)] /\
      retryDelay (retryConfig w') = retryDelay (retryConfig w) /\
      S (retries (retryConfig w')) = retries (retryConfig w) /\
      localStorage w' = localStorage w
  end.

Definition request_post (tok : option string) (config : Config) (w : World)
                        (o : Outcome) (w' : World) (evs : list Event) : Prop :=
  o <> Pending /\
  same_but_cache config w w' /\
  (method config <> "get" -> localStorage w' = localStorage w) /\
  trace w' = (trace w ++ evs)%list /\
  Forall (carries tok config) (dispatched evs) /\
  Forall (fun ms => ms = retryDelay (retryConfig w)) (delays evs) /\
  (List.length (dispatched evs) <= 1 + List.length (delays evs))%nat.

(** The outcome came from the network: a response axios built from an
    answer, or the error axios built from a failed dispatch. *)
Definition from_network (o : Outcome) : Prop :=
  match o with
  | Resolved response => is_Some (resp_config response)
  | Rejected error => is_Some (error_config error)
  | Pending => False
  end.

(** Every attempt is let through by the request interceptor. *)
Definition passes (env : nat -> Attempt) (config : Config) : Prop :=
  forall j, onLine_request (env j) = true \/ isAuthEndpoint config = true.

(** Every attempt is answered by a failure that [retryCondition] accepts. *)
Definition always_transient (env : nat -> Attempt) : Prop :=
  forall j c, exists msg code a,
    reply (env j) = Failed msg code a /\
    retryCondition (AxiosError msg c code (option_map (response_of c) a)) = true.

(** * Scenarios on a concrete browser *)

(** A runtime to run the scenarios on: [JSON.stringify] prints the JSON
    text, [JSON.parse] reads back the texts of the values in
    [known_values] and rejects every other text. *)
Definition quote : string := String (ascii_of_nat 34) EmptyString.

Fixpoint join (sep : string) (parts : list string) : string :=
  match parts with
  | [] => ""
  | [p] => p
  | p :: rest => (p ++ sep ++ join sep rest)%string
  end.

Fixpoint json_text (v : jsval) : string :=
  match v with
  | JUndefined => "undefined"
  | JNull => "null"
  | JBool b => if b then "true" else "false"
  | JNum n => pretty n
  | JStr s => (quote ++ s ++ quote)%string
  | JArr elems => ("[" ++ join "," (map json_text elems) ++ "]")%string
  | JObj props =>
      ("{" ++ join "," (map (fun p => (quote ++ fst p ++ quote ++ ":"
                                         ++ json_text (snd p))%string) props)
           ++ "}")%string
  end.

Definition stats_payload : jsval := JObj [("code_submissions", JNum 5)].

Definition stats_written_at : Z := 1700000000000.

Definition known_values : list jsval :=
  [JObj [("data", stats_payload); ("timestamp", JNum stats_written_at)]].

Definition parse_known (text : string) : Res jsval :=
  match List.find (fun v => String.eqb (json_text v) text) known_values with
  | Some v => Ok v
  | None => Throw SyntaxError
  end.

Definition decimal (s : string) : option Z :=
  if String.eqb s "" then Some 0
  else if String.eqb s "1700000000000" then Some 1700000000000
  else None.

Definition scenario_runtime : Runtime := {|
  JSON_stringify := fun v => Ok (json_text v);
  JSON_parse := parse_known;
  StringToNumber := decimal;
  ObjectToNumber := fun _ => None;
  ObjectToString := json_text
|}.

Definition empty_storage : Storage := mkStorage ∅ false (fun _ => true).

(** A desktop browser with nothing stored, at page load. *)
Definition browser : World :=
  mkWorld empty_storage empty_storage
          "Mozilla/5.0 (X11; Linux x86_64) Firefox/130.0"
          initial_retryConfig [].

(** The same browser after a login stored the token ["abc"]. *)
Definition logged_in : World := snd (setAuthToken (H := scenario_runtime) (JStr "abc") browser).

Definition json_headers : gmap string string :=
  {["Content-Type" := "application/json"]}.

Definition get_stats : Config :=
  mkConfig "get" "/dashboard/stats" json_headers JUndefined None.

Definition get_me : Config :=
  mkConfig "get" "/auth/me" json_headers JUndefined None.

Definition post_login : Config :=
  mkConfig "post" "/auth/login" json_headers
           (JObj [("email", JStr "a@b.c"); ("password", JStr "pw")]) None.

(** Online; the backend answers 200 with the dashboard statistics. *)
Definition online_ok (i : nat) : Attempt :=
  mkAttempt true stats_written_at (Fulfilled (mkAnswer 200 stats_payload))
            true stats_written_at.

(** Half an hour later the device is offline; a request that is sent all
    the same fails in the network layer. *)
Definition offline_later (i : nat) : Attempt :=
  mkAttempt false (stats_written_at + 30 * 60 * 1000)
            (Failed "Network Error" (Some "ERR_NETWORK") None)
            false (stats_written_at + 30 * 60 * 1000).

(** The same browser with both storage areas disabled. *)
Definition disabled_storage : Storage := mkStorage ∅ true (fun _ => true).

Definition storage_disabled_browser : World :=
  mkWorld disabled_storage disabled_storage (userAgent browser)
          initial_retryConfig [].

(** Online; the backend answers 500 once and then 200. *)
Definition flaky (i : nat) : Attempt :=
  match i with
  | O => mkAttempt true stats_written_at
                   (Failed "Request failed with status code 500"
                           (Some "ERR_BAD_RESPONSE") (Some (mkAnswer 500 JNull)))
                   true stats_written_at
  | S _ => online_ok i
  end.

(** Online; the backend answers every attempt with status 500. *)
Definition server_down (i : nat) : Attempt :=
  mkAttempt true stats_written_at
            (Failed "Request failed with status code 500"
                    (Some "ERR_BAD_RESPONSE") (Some (mkAnswer 500 JNull)))
            true stats_written_at.

(** * The application shell and the pages that use the accessors *)

(** ** App.js: route guards and the route table *)

(** What a route renders: a page, or a redirect. *)
Inductive Element :=
| Page (name : string)
| Navigate (to : string).

(** [allowedRoles.includes(role)] for an array of strings. *)
Definition includes_role (allowedRoles : list string) (role : jsval) : bool :=
  match role with
  | JStr r => existsb (String.eqb r) allowedRoles
  | _ => false
  end.

(** [v?.name] *)
Definition optional_prop (v : jsval) (name : string) : jsval :=
  match v with
  | JObj props => assoc name props
  | _ => JUndefined
  end.

(** How a [Route] of the table decides its element. *)
Inductive Guard :=
| Public                                      (* isAuth ? <Navigate to="/dashboard"/> : page *)
| Protected                                   (* <ProtectedRoute> *)
| RoleProtected (allowedRoles : list string). (* <RoleProtectedRoute allowedRoles=...> *)

Record Route := mkRoute {
  route_path : string;
  route_guard : Guard;
  route_page : string
}.

(** The [Route]s of [AppContent], in order. *)
Definition routes : list Route :=
  [ mkRoute "/" Public "LandingPage";
    mkRoute "/auth" Public "AuthPage";
    mkRoute "/dashboard" Protected "StudentDashboard";
    mkRoute "/profile" Protected "ProfilePage";
    mkRoute "/settings" Protected "SettingsPage";
    mkRoute "/tutor" Protected "TutorPage";
    mkRoute "/coding" Protected "CodingArena";
    mkRoute "/resume" Protected "ResumeAnalyzer";
    mkRoute "/interview" Protected "MockInterview";
    mkRoute "/career-readiness" Protected "CareerReadinessPage";
    mkRoute "/leaderboard" Protected "LeaderboardPage";
    mkRoute "/learning-path" Protected "LearningPathPage";
    mkRoute "/roadmap" Protected "Roadmap";
    mkRoute "/achievements" Protected "AchievementsPage";
    mkRoute "/resources" Protected "ResourcesPage";
    mkRoute "/company" (RoleProtected ["company"]) "CompanyPortal";
    mkRoute "/college" (RoleProtected ["college_admin"]) "CollegeAdmin" ].

(** The [Route] whose [path] prop is [p]; matching a URL against the
    paths is the router's. *)
Definition route_at (p : string) : option Route :=
  List.find (fun r => String.eqb (route_path r) p) routes.

(** ** components/NavigationBar.js *)

Record NavItem := mkNavItem {
  nav_label : string;
  nav_path : string;
  nav_roles : list string
}.

Definition mainNavItems : list NavItem :=
  [ mkNavItem "Dashboard" "/dashboard" ["student"; "job_seeker"];
    mkNavItem "AI Tutor" "/tutor" ["student"; "job_seeker"];
    mkNavItem "Coding Arena" "/coding" ["student"; "job_seeker"];
    mkNavItem "Resources" "/resources" ["student"; "job_seeker"];
    mkNavItem "Career Readiness" "/career-readiness" ["student"; "job_seeker"];
    mkNavItem "Resume Analyzer" "/resume" ["job_seeker"];
    mkNavItem "Mock Interview" "/interview" ["job_seeker"];
    mkNavItem "Company Portal" "/company" ["company"];
    mkNavItem "College Admin" "/college" ["college_admin"] ].

(** [mainNavItems.filter(item => !item.roles || item.roles.includes(user?.role))];
    every item has a [roles] array. *)
Definition filteredMainNav (user : jsval) : list NavItem :=
  List.filter (fun item => includes_role (nav_roles item) (optional_prop user "role"))
              mainNavItems.

(** ** pages/AuthPage.js *)

Inductive Toast :=
| ToastSuccess (msg : string)
| ToastError (msg : jsval).

(** What the [catch] of a submit handler receives: the error of the plain
    [axios.post], or an exception raised in the [try] block. *)
Inductive Caught :=
| CaughtAxios (msg : string) (response : option Answer)
| CaughtExn (e : Exn).

(** [error.response?.data?.detail] *)
Definition error_detail (error : Caught) : jsval :=
  match error with
  | CaughtAxios _ (Some a) => optional_prop (ans_data a) "detail"
  | _ => JUndefined
  end.

(** [if (role === "company") ... else if (role === "college_admin") ... else ...] *)
Definition role_path (role : jsval) : string :=
  match role with
  | JStr r => if String.eqb r "company" then "/company"
              else if String.eqb r "college_admin" then "/college"
              else "/dashboard"
  | _ => "/dashboard"
  end.

(** What a submit handler has done when it returns: the toasts shown, the
    target of [navigate] if it was called, the value the [authChange]
    listener of [AppContent] gave to [isAuth] if the event was dispatched,
    and the [loading] flag. *)
Record Submitted := mkSubmitted {
  toasts : list Toast;
  navigated : option string;
  isAuth_set : option bool;
  loading : bool
}.

Section Shell.
Context `{Runtime}.

Definition ProtectedRoute (children : Element) : M Element :=
  do auth <- isAuthenticated ;
  ret (if auth then children else Navigate "/auth").

Definition RoleProtectedRoute (allowedRoles : list string) (children : Element)
  : M Element :=
  do user <- getUser ;
  do auth <- isAuthenticated ;
  if negb auth then ret (Navigate "/auth")
  else if negb (truthy user) then ret (Navigate "/dashboard")
  else
    do role <- lift (get_prop user "role") ;
    if negb (includes_role allowedRoles role) then ret (Navigate "/dashboard")
    else ret children.

(** The element of a [Route], given the [isAuth] state of [AppContent]. *)
Definition route_element (isAuth : bool) (r : Route) : M Element :=
  match route_guard r with
  | Public => ret (if isAuth then Navigate "/dashboard" else Page (route_page r))
  | Protected => ProtectedRoute (Page (route_page r))
  | RoleProtected allowedRoles =>
      RoleProtectedRoute allowedRoles (Page (route_page r))
  end.

(** [NavigationBar]: nothing without a stored user, else the items for the
    user's role. *)
Definition NavigationBar : M (option (list NavItem)) :=
  do user <- getUser ;
  if negb (truthy user) then ret None
  else ret (Some (filteredMainNav user)).

(** [handleLogout]: [clearAuth()], then the [authChange] event, whose
    listener in [AppContent] does [setIsAuth(isAuthenticated())], then
    [navigate("/auth")].  Returns the new [isAuth] and the target. *)
Definition handleLogout : M (bool * string) :=
  clearAuth ;;
  do isAuth <- isAuthenticated ;
  ret (isAuth, "/auth").

Section Submit.
(** [error.message] of an exception is the platform's. *)
Variable exn_message : Exn -> string.

Definition error_message (error : Caught) : string :=
  match error with
  | CaughtAxios msg _ => msg
  | CaughtExn e => exn_message e
  end.

(** The message of the error toast. *)
Definition errorMessage (fallback : string) (error : Caught) (onLine : bool)
  : jsval :=
  if truthy (error_detail error) then error_detail error
  else if negb (String.eqb (error_message error) "")
       then JStr ("Network error: " ++ error_message error)
  else if negb onLine
       then JStr "No internet connection. Please check your network."
  else JStr fallback.

(** The [try] block after the [await]: the toasts shown so far, the value
    given to [isAuth] if the event was dispatched, and the target of
    [navigate] or the exception that ended the block. *)
Definition submit_try (success : string) (data : jsval)
  : M (list Toast * option bool * Res string) :=
  match get_prop data "token" with
  | Throw e => ret ([], None, Throw e)
  | Ok token =>
      setAuthToken token ;;
      match get_prop data "user" with
      | Throw e => ret ([], None, Throw e)
      | Ok user =>
          setUser user ;;
          do storedToken <- getAuthToken ;
          do isAuth <- isAuthenticated ;
          match get_prop user "role" with
          | Throw e => ret ([ToastSuccess success], Some isAuth, Throw e)
          | Ok role =>
              ret ([ToastSuccess success], Some isAuth, Ok (role_path role))
          end
      end
  end.

(** A submit handler, given the outcome of its [axios.post] and the value
    of [navigator.onLine] in the [catch]. *)
Definition submit (success fallback : string) (reply : Reply) (onLine : bool)
  : World -> Submitted * World :=
  fun w =>
    let failed shown isAuth error w :=
      (mkSubmitted (shown ++ [ToastError (errorMessage fallback error onLine)])
                   None isAuth false, w) in
    match reply with
    | Failed msg code a => failed [] None (CaughtAxios msg a) w
    | Fulfilled a =>
        match submit_try success (ans_data a) w with
        | (Ok (shown, isAuth, Ok target), w') =>
            (mkSubmitted shown (Some target) isAuth false, w')
        | (Ok (shown, isAuth, Throw e), w') => failed shown isAuth (CaughtExn e) w'
        | (Throw e, w') => failed [] None (CaughtExn e) w'
        end
    end.

Definition handleLogin : Reply -> bool -> World -> Submitted * World :=
  submit "Login successful!" "Login failed".

Definition handleRegister : Reply -> bool -> World -> Submitted * World :=
  submit "Registration successful!" "Registration failed".

End Submit.

End Shell.

(** ** Vocabulary for the shell *)

(** What [getUser] looks at. *)
Definition user_view (w : World) :=
  (blocked (localStorage w), items (localStorage w) !! "user",
   blocked (sessionStorage w), items (sessionStorage w) !! "user",
   userAgent w).

(** The value [getUser] returns. *)
Definition stored_user `{Runtime} (w : World) : jsval :=
  match fst (getUser w) with
  | Ok user => user
  | Throw _ => JNull
  end.

(** The value [isAuthenticated] returns. *)
Definition authenticated (w : World) : bool :=
  truthy_item (token_of_view (token_view w)).

(** What a guard of [roles] decides for the stored token and user. *)
Definition role_guard (roles : list string) (auth : bool) (user : jsval)
                      (children : Element) : Element :=
  if negb auth then Navigate "/auth"
  else if negb (truthy user) then Navigate "/dashboard"
  else if includes_role roles (optional_prop user "role") then children
  else Navigate "/dashboard".

(** ** Scenarios for the shell *)

Definition company_user : jsval :=
  JObj [("id", JStr "u1"); ("name", JStr "Acme"); ("email", JStr "hr@acme.io");
        ("role", JStr "company")].

(** A runtime whose [JSON.parse] also reads back the company user. *)
Definition portal_runtime : Runtime := {|
  JSON_stringify := fun v => Ok (json_text v);
  JSON_parse := fun text =>
    match List.find (fun v => String.eqb (json_text v) text)
                    (company_user :: known_values) with
    | Some v => Ok v
    | None => Throw SyntaxError
    end;
  StringToNumber := decimal;
  ObjectToNumber := fun _ => None;
  ObjectToString := json_text
|}.

(** A phone with nothing stored. *)
Definition phone : World :=
  mkWorld empty_storage empty_storage
          "Mozilla/5.0 (iPhone; CPU iPhone OS 17_0 like Mac OS X) Safari/604.1"
          initial_retryConfig [].

(** The desktop browser with the token and the company user stored. *)
Definition company_session : World :=
  snd (setUser (H := portal_runtime) company_user logged_in).

(** The backend's answer to a login of the company user. *)
Definition login_answer : Answer :=
  mkAnswer 200 (JObj [("token", JStr "abc"); ("user", company_user)]).

(** An answer with a token and no user. *)
Definition token_only_answer : Answer :=
  mkAnswer 200 (JObj [("token", JStr "abc")]).

(** The browser holding a cache entry that is not JSON. *)
Definition corrupted_cache : World :=
  mkWorld (mkStorage {["api-cache-get-/dashboard/stats" := "<html>"]} false
                     (fun _ => true))
          empty_storage (userAgent browser) initial_retryConfig [].

(** Online; the backend answers 404. *)
Definition not_found (i : nat) : Attempt :=
  mkAttempt true stats_written_at
            (Failed "Request failed with status code 404"
                    (Some "ERR_BAD_REQUEST") (Some (mkAnswer 404 JNull)))
            true stats_written_at.

(** The request leaves and is answered, but the probe reports offline
    when the response arrives. *)
Definition probe_drops (i : nat) : Attempt :=
  mkAttempt true stats_written_at (Fulfilled (mkAnswer 200 stats_payload))
            false stats_written_at.

(** A GET whose path has [/auth/] in the middle. *)
Definition get_audit : Config :=
  mkConfig "get" "/college/auth/report" json_headers JUndefined None.

Definition type_error_text (e : Exn) : string :=
  "Cannot read properties of undefined (reading 'role')".


(** * Properties *)

Lemma dispatched_app l1 l2 :
  dispatched (l1 ++ l2) = (dispatched l1 ++ dispatched l2)%list.
Proof. apply omap_app. Qed.

Lemma delays_app l1 l2 : delays (l1 ++ l2) = (delays l1 ++ delays l2)%list.
Proof. apply omap_app. Qed.

Lemma new_events_app w w' evs :
  trace w' = (trace w ++ evs)%list -> new_events w w' = evs.
Proof. intros Htr. unfold new_events. rewrite Htr. apply drop_app_length. Qed.

(** ** Basic facts about the accessors *)

Ltac unfold_monad :=
  unfold try_catch, bind, ret, lift, throw, console_warn, emit, isMobile,
    localStorage_getItem, sessionStorage_getItem,
    localStorage_setItem, sessionStorage_setItem,
    localStorage_removeItem, sessionStorage_removeItem,
    getItem, setItem, removeItem in *.

Ltac break_match :=
  match goal with
  | |- context [match ?x with _ => _ end] =>
      lazymatch x with
      | context [match _ with _ => _ end] => fail
      | _ => destruct x eqn:?
      end
  end.

Ltac crunch := repeat (simpl in *; try break_match); simpl in *.

Section AccessorFacts.
Context `{Runtime}.

Lemma setAuthToken_never_throws token : never_throws (setAuthToken token).
Proof.
  intros w. unfold setAuthToken, setAuthToken_try. unfold_monad.
  crunch; eauto.
Qed.


Lemma clearAuth_never_throws : never_throws clearAuth.
Proof.
  intros w. unfold clearAuth, clearAuth_try. unfold_monad.
  crunch; eauto.
Qed.

Lemma setUser_never_throws user : never_throws (setUser user).
Proof.
  intros w. unfold setUser, setUser_try. unfold_monad.
  crunch; eauto.
Qed.

Lemma getUser_never_throws : never_throws getUser.
Proof.
  intros w. unfold getUser, getUser_try. unfold_monad.
  crunch; eauto.
Qed.



End AccessorFacts.

Section TokenFacts.
Context `{Runtime}.

Lemma getAuthToken_result w :
  fst (getAuthToken w) = Ok (token_of_view (token_view w)).
Proof.
  unfold getAuthToken, getAuthToken_try, token_of_view, token_view.
  unfold_monad. simpl. crunch; congruence.
Qed.

Lemma getAuthToken_view w1 w2 :
  token_view w1 = token_view w2 ->
  fst (getAuthToken w1) = fst (getAuthToken w2).
Proof. intros Hv. by rewrite !getAuthToken_result, Hv. Qed.

(** [getAuthToken] only reads: at most a warning is added to the trace. *)
Lemma getAuthToken_frame w :
  let w' := snd (getAuthToken w) in
  localStorage w' = localStorage w /\
  sessionStorage w' = sessionStorage w /\
  userAgent w' = userAgent w /\
  retryConfig w' = retryConfig w /\
  exists warnings, trace w' = (trace w ++ warnings)%list /\
                   dispatched warnings = [] /\ delays warnings = [].
Proof.
  unfold getAuthToken, getAuthToken_try. unfold_monad.
  crunch; repeat split; auto;
    first [ exists []; rewrite app_nil_r; by auto
          | eexists [_]; by auto ].
Qed.

Lemma getAuthToken_keeps_view w :
  token_view (snd (getAuthToken w)) = token_view w.
Proof.
  destruct (getAuthToken_frame w) as (Hl & Hs & Hu & _).
  unfold token_view. by rewrite Hl, Hs, Hu.
Qed.

Lemma after_reads_view n w : token_view (after_reads n w) = token_view w.
Proof.
  revert w. induction n as [|n IH]; intros w; simpl; [done|].
  rewrite IH. apply getAuthToken_keeps_view.
Qed.

Lemma clearAuth_then_getAuthToken w :
  fst (getAuthToken (snd (clearAuth w))) = Ok None.
Proof.
  unfold clearAuth, clearAuth_try, getAuthToken, getAuthToken_try.
  unfold_monad.
  destruct (blocked (localStorage w)) eqn:Hl; simpl; [by rewrite Hl|].
  destruct (blocked (sessionStorage w)) eqn:Hs; simpl.
  - rewrite lookup_delete_ne, lookup_delete_eq by done. simpl.
    destruct (mobile_agent _); simpl; [by rewrite Hs | done].
  - rewrite lookup_delete_ne, lookup_delete_eq by done. simpl.
    destruct (mobile_agent _); simpl; [|done].
    by rewrite lookup_delete_ne, lookup_delete_eq.
Qed.

Lemma setAuthToken_falsy_then_getAuthToken token w :
  truthy token = false ->
  fst (getAuthToken (snd (setAuthToken token w))) = Ok None.
Proof.
  intros Hf. unfold setAuthToken, setAuthToken_try. rewrite Hf.
  unfold getAuthToken, getAuthToken_try. unfold_monad.
  destruct (blocked (localStorage w)) eqn:Hl; simpl; [by rewrite Hl|].
  destruct (blocked (sessionStorage w)) eqn:Hs; simpl.
  - rewrite lookup_delete_eq. simpl.
    destruct (mobile_agent _); simpl; [by rewrite Hs | done].
  - rewrite lookup_delete_eq. simpl.
    destruct (mobile_agent _); simpl; [|done].
    by rewrite lookup_delete_eq.
Qed.

End TokenFacts.

(** ** One attempt of a request *)

Section AttemptFacts.
Context `{Runtime}.

Lemma prepared_method w config : method (prepared w config) = method config.
Proof. unfold prepared, attach_token. crunch; done. Qed.

Lemma prepared_url w config : url (prepared w config) = url config.
Proof. unfold prepared, attach_token. crunch; done. Qed.

Lemma prepared_cache_item w config :
  cache_item (prepared w config) = cache_item config.
Proof.
  unfold cache_item, cacheKey. by rewrite prepared_method, prepared_url.
Qed.

Lemma prepared_isAuthEndpoint w config :
  isAuthEndpoint (prepared w config) = isAuthEndpoint config.
Proof. unfold isAuthEndpoint. by rewrite prepared_url. Qed.

Lemma prepared_retry w config : retry (prepared w config) = Some RetryConfigRef.
Proof. done. Qed.

Lemma getAuthToken_run w :
  getAuthToken w = (Ok (token_of_view (token_view w)), snd (getAuthToken w)).
Proof.
  rewrite <- getAuthToken_result. by destruct (getAuthToken w).
Qed.

Lemma offline_branch_reads env config w :
  snd (offline_branch env config w) = w.
Proof.
  unfold offline_branch. unfold_monad. crunch; congruence.
Qed.

Lemma request_interceptor_world env config w :
  snd (request_interceptor env config w) = snd (getAuthToken w).
Proof.
  unfold request_interceptor, bind at 1. rewrite getAuthToken_run at 1.
  fold (prepared w config).
  destruct (negb _ && negb _); [|done].
  unfold bind, ret.
  pose proof (offline_branch_reads env (prepared w config) (snd (getAuthToken w))) as Hr.
  destruct (offline_branch _ _ _) as [[r|e] w1]; simpl in *; congruence.
Qed.

Lemma request_interceptor_pass env config w :
  onLine_request env = true \/ isAuthEndpoint config = true ->
  fst (request_interceptor env config w) = Ok (inl (prepared w config)).
Proof.
  intros Hpass. unfold request_interceptor, bind at 1.
  rewrite getAuthToken_run at 1. fold (prepared w config).
  rewrite prepared_isAuthEndpoint.
  destruct Hpass as [-> | ->]; simpl; [done|].
  by rewrite andb_false_r.
Qed.

Lemma request_interceptor_offline env config w :
  onLine_request env = false -> isAuthEndpoint config = false ->
  fst (request_interceptor env config w) =
    match fst (offline_branch env (prepared w config) (snd (getAuthToken w))) with
    | Ok rejection => Ok (inr rejection)
    | Throw e => Throw e
    end.
Proof.
  intros Hoff Hna. unfold request_interceptor, bind at 1.
  rewrite getAuthToken_run at 1. fold (prepared w config).
  rewrite prepared_isAuthEndpoint, Hoff, Hna. simpl.
  unfold bind, ret. by destruct (offline_branch _ _ _) as [[r|e] w1].
Qed.

Lemma offline_branch_kind env config w r :
  fst (offline_branch env config w) = Ok r ->
  r = OfflineNoCache \/ exists d, r = OfflineCached (mkResponse d 200 None).
Proof.
  unfold offline_branch. unfold_monad. crunch; intros [= <-]; eauto.
Qed.

Lemma attempt_offline env config w :
  onLine_request env = false -> isAuthEndpoint config = false ->
  attempt env config w =
    (Settle (offline_outcome
               (fst (offline_branch env (prepared w config) (snd (getAuthToken w))))),
     snd (getAuthToken w)).
Proof.
  intros Hoff Hna. unfold attempt.
  pose proof (request_interceptor_offline env config w Hoff Hna) as Hr.
  pose proof (request_interceptor_world env config w) as Hw.
  destruct (request_interceptor env config w) as [r w1]. simpl in Hr, Hw. subst.
  destruct (fst (offline_branch _ _ _)) as [rej|e] eqn:Hob; simpl.
  - destruct (offline_branch_kind _ _ _ _ Hob) as [-> | [d ->]]; done.
  - done.
Qed.

Lemma on_fulfilled_returns env c a w :
  fst (on_fulfilled env (response_of c a) w) = Ok (response_of c a).
Proof.
  unfold on_fulfilled, cache_write_try. unfold_monad. crunch; congruence.
Qed.

Lemma attempt_fulfilled env config w a :
  onLine_request env = true \/ isAuthEndpoint config = true ->
  reply env = Fulfilled a ->
  let c := prepared w config in
  attempt env config w =
    (Settle (Resolved (response_of c a)),
     snd (on_fulfilled env (response_of c a) (sent c (snd (getAuthToken w))))).
Proof.
  intros Hpass Hrep c. unfold attempt.
  pose proof (request_interceptor_pass env config w Hpass) as Hr.
  pose proof (request_interceptor_world env config w) as Hw.
  destruct (request_interceptor env config w) as [r w1]. simpl in Hr, Hw. subst.
  unfold dispatch, bind at 1. simpl. rewrite Hrep. fold c.
  fold (response_of c a).
  pose proof (on_fulfilled_returns env c a (sent c (snd (getAuthToken w)))) as Hf.
  unfold sent, emit in *. simpl in *.
  destruct (on_fulfilled _ _ _) as [r w3]. simpl in *. by subst.
Qed.

Lemma attempt_failed env config w msg code a :
  onLine_request env = true \/ isAuthEndpoint config = true ->
  reply env = Failed msg code a ->
  let c := prepared w config in
  let error := AxiosError msg c code (option_map (response_of c) a) in
  let w2 := sent c (snd (getAuthToken w)) in
  attempt env config w =
    if (0 <? retries (retryConfig w))%nat && retryCondition error
    then (RetryWith c, retry_scheduled w2)
    else (Settle (Rejected error), w2).
Proof.
  intros Hpass Hrep c error w2. unfold attempt.
  pose proof (request_interceptor_pass env config w Hpass) as Hr.
  pose proof (request_interceptor_world env config w) as Hw.
  destruct (request_interceptor env config w) as [r w1]. simpl in Hr, Hw. subst.
  unfold dispatch, bind at 1. simpl. rewrite Hrep. fold c.
  destruct (getAuthToken_frame w) as (_ & _ & _ & Hrc & _).
  unfold on_rejected, get_retries, get_retryDelay, decrement_retries.
  unfold_monad. simpl. rewrite Hrc.
  change (mkResponse (ans_data ?x) (ans_status ?x) (Some c)) with (response_of c x).
  fold error. subst w2.
  unfold retry_scheduled, sent, decrement_retries, emit. simpl. rewrite ?Hrc.
  destruct ((0 <? _)%nat && _); done.
Qed.

End AttemptFacts.

(** ** What a request may change *)

Section FrameFacts.
Context `{Runtime}.

Lemma same_but_cache_refl config w : same_but_cache config w w.
Proof. by repeat split. Qed.

Lemma same_but_cache_trans c1 c2 w1 w2 w3 :
  cache_item c2 = cache_item c1 ->
  same_but_cache c1 w1 w2 -> same_but_cache c2 w2 w3 ->
  same_but_cache c1 w1 w3.
Proof.
  intros Hk (Hs & Hu & Hb & Hf & Hi) (Hs' & Hu' & Hb' & Hf' & Hi').
  repeat split; try congruence.
  intros k Hne. rewrite Hi' by congruence. by apply Hi.
Qed.

Lemma cache_item_not_token config : "token" <> cache_item config.
Proof.
  unfold cache_item.
  change ("api-cache-" ++ cacheKey config)
    with (String "a" ("pi-cache-" ++ cacheKey config)).
  intros [=].
Qed.

Lemma cache_item_not_user config : "user" <> cache_item config.
Proof.
  unfold cache_item.
  change ("api-cache-" ++ cacheKey config)
    with (String "a" ("pi-cache-" ++ cacheKey config)).
  intros [=].
Qed.

Lemma same_but_cache_view config w w' :
  same_but_cache config w w' -> token_view w' = token_view w.
Proof.
  intros (Hs & Hu & Hb & Hf & Hi). unfold token_view.
  rewrite Hs, Hu, Hb, (Hi "token") by apply cache_item_not_token. done.
Qed.

Lemma getAuthToken_same config w : same_but_cache config w (snd (getAuthToken w)).
Proof.
  destruct (getAuthToken_frame w) as (Hl & Hs & Hu & _).
  repeat split; congruence.
Qed.

Lemma on_fulfilled_frame env c a w :
  let w' := snd (on_fulfilled env (response_of c a) w) in
  same_but_cache c w w' /\
  retryConfig w' = retryConfig w /\
  (method c <> "get" -> w' = w) /\
  exists warnings, trace w' = (trace w ++ warnings)%list /\
                   dispatched warnings = [] /\ delays warnings = [].
Proof.
  assert (Hnil : forall w0 : World,
             exists warnings, trace w0 = (trace w0 ++ warnings)%list /\
                              dispatched warnings = [] /\ delays warnings = []).
  { intros w0. exists []. by rewrite app_nil_r. }
  unfold on_fulfilled, same_but_cache, cache_write_try. simpl.
  destruct (String.eqb (method c) "get") eqn:Hm; simpl.
  2:{ unfold_monad. simpl. by repeat split. }
  apply String.eqb_eq in Hm.
  destruct (onLine_response env); simpl.
  2:{ unfold_monad. simpl. repeat split; auto. }
  unfold_monad.
  destruct (JSON_stringify _) as [text|e]; simpl.
  2:{ repeat split; auto; [congruence|]. by eexists [_]. }
  destruct (blocked (localStorage w)) eqn:Hb; simpl.
  { repeat split; auto; [congruence|]. by eexists [_]. }
  destruct (fits (localStorage w) _) eqn:Hfit; simpl.
  2:{ repeat split; auto; [congruence|]. by eexists [_]. }
  repeat split; auto; [|congruence].
  intros k Hne. by rewrite lookup_insert_ne.
Qed.

Lemma attach_token_twice tok config :
  headers (attach_token tok (set_retry (attach_token tok config))) =
  headers (attach_token tok config).
Proof.
  unfold attach_token. destruct tok as [t|]; [|done].
  destruct (truthy_item (Some t)); [|done].
  simpl. by rewrite insert_insert_eq.
Qed.

Lemma carries_prepared w config :
  carries (token_of_view (token_view w)) config (prepared w config).
Proof.
  unfold carries. rewrite prepared_method, prepared_url.
  unfold prepared, attach_token. crunch; done.
Qed.

Lemma carries_again tok config c c' :
  carries tok config c ->
  carries tok c c' ->
  carries tok config c'.
Proof.
  intros (Hm & Hu & Hb & Hh) (Hm' & Hu' & Hb' & Hh').
  repeat split; try congruence.
  rewrite Hh'. unfold attach_token in *.
  destruct tok as [t|]; [|done].
  destruct (truthy_item (Some t)); [|done].
  simpl in *. rewrite Hh. by rewrite insert_insert_eq.
Qed.

Lemma attempt_summary_offline env config w :
  onLine_request env = false -> isAuthEndpoint config = false ->
  exists next w' evs,
    attempt env config w = (next, w') /\ attempt_post config w next w' evs.
Proof.
  intros Hon Hauth.
  pose proof (getAuthToken_frame w) as (Hl & Hs & Hu & Hrc & ws & Htr & Hd & Hdl).
  pose proof (getAuthToken_same config w) as Hsame.
  rewrite (attempt_offline _ _ _ Hon Hauth).
  eexists _, _, ws. split; [reflexivity|].
  split; [done|]. split; [congruence|]. split; [done|].
  split; [by left|].
  split; [|done].
  destruct (fst (offline_branch _ _ _)) as [[]|]; done.
Qed.

Lemma attempt_summary_fulfilled env config w a :
  onLine_request env = true \/ isAuthEndpoint config = true ->
  reply env = Fulfilled a ->
  exists next w' evs,
    attempt env config w = (next, w') /\ attempt_post config w next w' evs /\
    next = Settle (Resolved (response_of (prepared w config) a)) /\
    dispatched evs = [prepared w config].
Proof.
  intros Hpass Hrep.
  pose proof (getAuthToken_frame w) as (Hl & Hs & Hu & Hrc & ws & Htr & Hd & Hdl).
  pose proof (getAuthToken_same config w) as Hsame.
  rewrite (attempt_fulfilled _ _ _ _ Hpass Hrep).
  pose proof (on_fulfilled_frame env (prepared w config) a
                (sent (prepared w config) (snd (getAuthToken w))))
    as (Hsame' & Hrc' & Hng & ws' & Htr' & Hd' & Hdl').
  eexists _, _, (ws ++ [Dispatch (prepared w config)] ++ ws')%list.
  split; [reflexivity|].
  split; [|split; [done|]; by rewrite !dispatched_app, Hd, Hd'].
  unfold attempt_post.
  split.
  { eapply same_but_cache_trans; [| exact Hsame |].
    - apply prepared_cache_item.
    - destruct Hsame' as (? & ? & ? & ? & Hi'). by repeat split. }
  split.
  { intros Hm. rewrite Hng by (by rewrite prepared_method). simpl. congruence. }
  split.
  { rewrite Htr'. unfold sent. simpl. rewrite Htr. by rewrite <- !app_assoc. }
  rewrite !dispatched_app, !delays_app, Hd, Hd', Hdl, Hdl'. simpl.
  split; [by right|]. split; [done|]. split; [|done].
  simpl in Hrc'. congruence.
Qed.

Lemma attempt_summary_failed env config w msg code a :
  onLine_request env = true \/ isAuthEndpoint config = true ->
  reply env = Failed msg code a ->
  let c := prepared w config in
  let error := AxiosError msg c code (option_map (response_of c) a) in
  exists next w' evs,
    attempt env config w = (next, w') /\ attempt_post config w next w' evs /\
    next = (if (0 <? retries (retryConfig w))%nat && retryCondition error
            then RetryWith c else Settle (Rejected error)) /\
    dispatched evs = [c].
Proof.
  intros Hpass Hrep. simpl.
  pose proof (getAuthToken_frame w) as (Hl & Hs & Hu & Hrc & ws & Htr & Hd & Hdl).
  pose proof (getAuthToken_same config w) as Hsame.
  rewrite (attempt_failed _ _ _ _ _ _ Hpass Hrep).
  destruct (_ && _) eqn:Hretry.
  - apply andb_prop in Hretry as [Hpos _]. apply Nat.ltb_lt in Hpos.
    eexists _, _, (ws ++ [Dispatch (prepared w config);
                          Delay (retryDelay (retryConfig w))])%list.
    split; [reflexivity|].
    split; [|split; [done|]; by rewrite !dispatched_app, Hd].
    unfold attempt_post.
    unfold retry_scheduled, sent, decrement_retries, emit. simpl. rewrite Hrc.
    split; [destruct Hsame as (? & ? & ? & ? & ?); by repeat split|].
    split; [congruence|].
    split; [rewrite Htr; by rewrite <- !app_assoc|].
    rewrite !dispatched_app, !delays_app, Hd, Hdl. simpl.
    split; [by right|]. repeat split; auto. lia.
  - eexists _, _, (ws ++ [Dispatch (prepared w config)])%list.
    split; [reflexivity|].
    split; [|split; [done|]; by rewrite !dispatched_app, Hd].
    unfold attempt_post.
    unfold sent, emit. simpl.
    split; [destruct Hsame as (? & ? & ? & ? & ?); by repeat split|].
    split; [congruence|].
    split; [rewrite Htr; by rewrite <- !app_assoc|].
    rewrite !dispatched_app, !delays_app, Hd, Hdl. simpl.
    split; [by right|]. by repeat split.
Qed.

Lemma attempt_summary env config w :
  exists next w' evs,
    attempt env config w = (next, w') /\ attempt_post config w next w' evs.
Proof.
  destruct (onLine_request env) eqn:Hon;
    [| destruct (isAuthEndpoint config) eqn:Hauth ].
  3: by apply attempt_summary_offline.
  all: assert (onLine_request env = true \/ isAuthEndpoint config = true)
         as Hpass by auto.
  all: destruct (reply env) as [a | msg code a] eqn:Hrep.
  all: first
    [ destruct (attempt_summary_fulfilled _ _ w _ Hpass Hrep)
        as (next & w' & evs & ? & ? & _); by eauto
    | destruct (attempt_summary_failed _ _ w _ _ _ Hpass Hrep)
        as (next & w' & evs & ? & ? & _); by eauto ].
Qed.

End FrameFacts.

(** ** The whole request: every attempt, whatever the platform does *)

Section RequestFacts.
Context `{Runtime}.

Lemma request_summary fuel : forall env i config w,
  (retries (retryConfig w) < fuel)%nat ->
  exists o w' evs,
    request fuel env i config w = (o, w') /\
    request_post (token_of_view (token_view w)) config w o w' evs.
Proof.
  induction fuel as [|fuel IH]; intros env i config w Hfuel; [lia|].
  simpl.
  destruct (attempt_summary (env i) config w)
    as (next & w1 & evs & -> & Hsame & Hng & Htr & Hdisp & Hnext).
  assert (Hcar : Forall (carries (token_of_view (token_view w)) config)
                        (dispatched evs)).
  { destruct Hdisp as [-> | ->]; [constructor|].
    constructor; [apply carries_prepared | constructor]. }
  destruct next as [o | c].
  - destruct Hnext as (Hop & Hrc & Hdl).
    exists o, w1, evs. split; [done|].
    split; [done|]. split; [done|]. split; [done|]. split; [done|].
    split; [done|]. rewrite Hdl.
    split; [constructor|].
    destruct Hdisp as [-> | ->]; simpl; lia.
  - destruct Hnext as (-> & Hd & Hdl & Hrd & Hre & _).
    pose proof (same_but_cache_view _ _ _ Hsame) as Hview.
    destruct (IH env (S i) (prepared w config) w1 ltac:(lia))
      as (o & w2 & evs2 & -> & Hop & Hsame2 & Hng2 & Htr2 & Hcar2 & Hdl2 & Hlen2).
    exists o, w2, (evs ++ evs2)%list. split; [done|].
    split; [done|].
    split.
    { eapply same_but_cache_trans; [apply prepared_cache_item | done | done]. }
    split.
    { intros Hm. rewrite Hng2 by (by rewrite prepared_method). by apply Hng. }
    split.
    { rewrite Htr2, Htr. by rewrite <- app_assoc. }
    rewrite dispatched_app, delays_app, Hd, Hdl. simpl.
    split.
    { constructor; [apply carries_prepared|].
      rewrite Hview in Hcar2.
      eapply Forall_impl; [exact Hcar2|].
      intros c' Hc'. eapply carries_again; [apply carries_prepared | done]. }
    split.
    { constructor; [done|]. by rewrite Hrd in Hdl2. }
    lia.
Qed.

(** [axiosInstance] always settles, and in doing so touches nothing but
    the trace, the retry counter and the cache entry of its request. *)
Lemma axiosInstance_summary env config w :
  exists o w' evs,
    axiosInstance env config w = (o, w') /\
    request_post (token_of_view (token_view w)) config w o w' evs.
Proof. apply request_summary. lia. Qed.

End RequestFacts.

(** ** Requests that are never intercepted offline *)

Section PassFacts.
Context `{Runtime}.

Lemma passes_prepared env config w :
  passes env config -> passes env (prepared w config).
Proof. intros Hp j. rewrite prepared_isAuthEndpoint. apply Hp. Qed.

Lemma request_pass_summary fuel : forall env i config w,
  passes env config ->
  (retries (retryConfig w) < fuel)%nat ->
  exists o w' evs,
    request fuel env i config w = (o, w') /\
    trace w' = (trace w ++ evs)%list /\
    List.length (dispatched evs) = S (List.length (delays evs)) /\
    from_network o.
Proof.
  induction fuel as [|fuel IH]; intros env i config w Hp Hfuel; [lia|].
  simpl. specialize (Hp i) as Hpi.
  destruct (reply (env i)) as [a | msg code a] eqn:Hrep.
  - destruct (attempt_summary_fulfilled _ _ w _ Hpi Hrep)
      as (next & w1 & evs & -> & Hpost & -> & Hd).
    destruct Hpost as (_ & _ & Htr & _ & _ & _ & Hdl).
    exists (Resolved (response_of (prepared w config) a)), w1, evs.
    split; [done|]. split; [done|]. rewrite Hd, Hdl. split; [done|].
    simpl. eauto.
  - destruct (attempt_summary_failed _ _ w _ _ _ Hpi Hrep)
      as (next & w1 & evs & -> & Hpost & -> & Hd).
    destruct Hpost as (_ & _ & Htr & _ & Hnext).
    destruct (_ && _).
    + destruct Hnext as (_ & _ & Hdl & _ & Hre & _).
      destruct (IH env (S i) (prepared w config) w1
                  (passes_prepared _ _ w Hp) ltac:(lia))
        as (o & w2 & evs2 & -> & Htr2 & Hlen2 & Hnet).
      exists o, w2, (evs ++ evs2)%list. split; [done|].
      split; [rewrite Htr2, Htr; by rewrite <- app_assoc|].
      rewrite dispatched_app, delays_app, !length_app, Hd, Hdl. simpl.
      split; [lia|]. exact Hnet.
    + destruct Hnext as (_ & _ & Hdl).
      eexists _, w1, evs. split; [done|]. split; [done|].
      rewrite Hd, Hdl. split; [done|]. simpl. eauto.
Qed.

(** With [n] retries left on the shared counter, a request whose every
    attempt fails transiently is sent [n + 1] times and uses the counter up. *)
Lemma request_transient fuel : forall env i config w,
  passes env config ->
  always_transient env ->
  (retries (retryConfig w) < fuel)%nat ->
  exists error w' evs,
    request fuel env i config w = (Rejected error, w') /\
    trace w' = (trace w ++ evs)%list /\
    List.length (dispatched evs) = S (retries (retryConfig w)) /\
    delays evs = replicate (retries (retryConfig w)) (retryDelay (retryConfig w)) /\
    retries (retryConfig w') = O /\
    retryDelay (retryConfig w') = retryDelay (retryConfig w) /\
    retryCondition error = true.
Proof.
  induction fuel as [|fuel IH]; intros env i config w Hp Htrans Hfuel; [lia|].
  simpl. specialize (Hp i) as Hpi.
  destruct (Htrans i (prepared w config)) as (msg & code & a & Hrep & Hcond).
  destruct (attempt_summary_failed _ _ w _ _ _ Hpi Hrep)
    as (next & w1 & evs & -> & Hpost & -> & Hd).
  destruct Hpost as (_ & _ & Htr & _ & Hnext).
  rewrite Hcond, andb_true_r in *.
  destruct (0 <? retries (retryConfig w))%nat eqn:Hpos.
  - destruct Hnext as (_ & _ & Hdl & Hrd & Hre & _).
    destruct (IH env (S i) (prepared w config) w1
                (passes_prepared _ _ w Hp) Htrans ltac:(lia))
      as (error & w2 & evs2 & -> & Htr2 & Hlen2 & Hdl2 & Hz & Hrd2 & Hc2).
    exists error, w2, (evs ++ evs2)%list. split; [done|].
    split; [rewrite Htr2, Htr; by rewrite <- app_assoc|].
    rewrite dispatched_app, delays_app, !length_app, Hd, Hdl, Hdl2, Hlen2.
    rewrite <- Hre, Hrd. simpl.
    repeat split; auto. congruence.
  - apply Nat.ltb_ge in Hpos. destruct Hnext as (_ & Hrc & Hdl).
    eexists _, w1, evs. split; [done|]. split; [done|].
    rewrite Hd, Hdl, Hrc.
    replace (retries (retryConfig w)) with O by lia. simpl.
    by repeat split.
Qed.

End PassFacts.

(** * The claims *)

Section Claims.
Context `{Runtime}.

Lemma axiosInstance_first_attempt env config w next w' :
  attempt (env O) config w = (Settle next, w') ->
  axiosInstance env config w = (next, w').
Proof. intros Ha. unfold axiosInstance. simpl. by rewrite Ha. Qed.

Lemma on_fulfilled_writes env c a w text :
  method c = "get" -> onLine_response env = true ->
  blocked (localStorage w) = false ->
  JSON_stringify (JObj [("data", ans_data a);
                        ("timestamp", JNum (now_response env))]) = Ok text ->
  fits (localStorage w) (<[cache_item c := text]> (items (localStorage w))) = true ->
  localStorage (snd (on_fulfilled env (response_of c a) w)) =
    mkStorage (<[cache_item c := text]> (items (localStorage w))) false
              (fits (localStorage w)).
Proof.
  intros Hm Hon Hb Hs Hfit. unfold on_fulfilled, cache_write_try. simpl.
  rewrite Hm, Hon. simpl. unfold_monad. simpl in *.
  rewrite Hs. simpl. rewrite Hb, Hfit. done.
Qed.

Lemma offline_branch_hit env c w text parsed t d :
  blocked (localStorage w) = false ->
  items (localStorage w) !! cache_item c = Some text -> text <> "" ->
  JSON_parse text = Ok parsed ->
  get_prop parsed "timestamp" = Ok (JNum t) ->
  get_prop parsed "data" = Ok d ->
  now_request env - t < DAY_MS ->
  fst (offline_branch env c w) = Ok (OfflineCached (mkResponse d 200 None)).
Proof.
  intros Hb Hi Hne Hp Ht Hd Hfresh. unfold offline_branch. unfold_monad.
  rewrite Hb, Hi. simpl.
  assert (String.eqb text "" = false) as -> by (by apply String.eqb_neq).
  simpl. rewrite Hp. simpl. rewrite Ht. simpl.
  unfold fresh. simpl.
  assert ((now_request env - t <? DAY_MS) = true) as -> by (by apply Z.ltb_lt).
  by rewrite Hd.
Qed.

Lemma offline_branch_miss env c w :
  blocked (localStorage w) = false ->
  (items (localStorage w) !! cache_item c = None \/
   exists text parsed t,
     items (localStorage w) !! cache_item c = Some text /\
     JSON_parse text = Ok parsed /\
     get_prop parsed "timestamp" = Ok (JNum t) /\
     DAY_MS <= now_request env - t) ->
  fst (offline_branch env c w) = Ok OfflineNoCache.
Proof.
  intros Hb Hmiss. unfold offline_branch. unfold_monad. rewrite Hb.
  destruct Hmiss as [-> | (text & parsed & t & -> & Hp & Ht & Hold)]; [done|].
  simpl. destruct (negb (String.eqb text "")); [|done].
  rewrite Hp. simpl. rewrite Ht. simpl. unfold fresh. simpl.
  assert ((now_request env - t <? DAY_MS) = false) as -> by (by apply Z.ltb_ge).
  done.
Qed.

(** A request that resolves with a response of the network: the response
    interceptor ran on the answer to the attempt numbered by the retries
    so far, and up to then [localStorage] was as at the start. *)
Lemma request_resolved fuel : forall env i config w r,
  (retries (retryConfig w) < fuel)%nat ->
  fst (request fuel env i config w) = Resolved r ->
  let w' := snd (request fuel env i config w) in
  let k := (i + List.length (delays (new_events w w')))%nat in
  onLine_request (env k) = true \/ isAuthEndpoint config = true ->
  exists a c wk,
    reply (env k) = Fulfilled a /\ r = response_of c a /\
    cache_item c = cache_item config /\ method c = method config /\
    localStorage wk = localStorage w /\
    w' = snd (on_fulfilled (env k) r wk).
Proof.
  induction fuel as [|fuel IH]; intros env i config w r Hfuel; [lia|].
  simpl.
  destruct (attempt_summary (env i) config w)
    as (next & w1 & evs & Hatt & Hsame & Hng & Htr & Hdisp & Hnext).
  rewrite Hatt. destruct next as [o | c].
  - simpl. intros ->. destruct Hnext as (_ & _ & Hdl).
    rewrite (new_events_app _ _ _ Htr), Hdl. simpl. rewrite Nat.add_0_r.
    intros Hpass.
    destruct (reply (env i)) as [a | msg code a] eqn:Hrep.
    + rewrite (attempt_fulfilled _ _ _ _ Hpass Hrep) in Hatt.
      injection Hatt as Hr Hw1.
      exists a, (prepared w config), (sent (prepared w config) (snd (getAuthToken w))).
      split; [done|]. split; [done|].
      split; [apply prepared_cache_item|].
      split; [apply prepared_method|].
      split.
      { destruct (getAuthToken_frame w) as (Hl & _). exact Hl. }
      by rewrite <- Hr.
    + rewrite (attempt_failed _ _ _ _ _ _ Hpass Hrep) in Hatt.
      destruct (_ && _); discriminate.
  - destruct Hnext as (-> & Hd & Hdl & Hrd & Hre & Hloc).
    destruct (request_summary fuel env (S i) (prepared w config) w1 ltac:(lia))
      as (o & w2 & evs2 & Hreq & _ & _ & _ & Htr2 & _).
    intros Hres. specialize (IH env (S i) (prepared w config) w1 r ltac:(lia) Hres).
    rewrite Hreq in *. cbn [fst snd] in *.
    rewrite (new_events_app _ _ _ Htr2) in IH.
    rewrite Htr, <- app_assoc in Htr2.
    rewrite (new_events_app _ _ _ Htr2), delays_app, Hdl, length_app.
    cbn [List.length Nat.add].
    replace (i + S (List.length (delays evs2)))%nat
      with (S i + List.length (delays evs2))%nat by lia.
    rewrite prepared_isAuthEndpoint in IH. intros Hpass.
    destruct (IH Hpass) as (a & c & wk & Hrep & Hr & Hk & Hm & Hl & Hw).
    exists a, c, wk.
    rewrite ?prepared_cache_item in Hk. rewrite ?prepared_method in Hm.
    repeat split; auto. congruence.
Qed.

(** C1, as amended.  A GET to a path that is not an authentication endpoint
    resolves, possibly after retries, with a response received while the
    probe reports online, and its cache entry is written (the storage
    accepts it and the stored text parses back to what was written).  Then
    a GET to the same path, issued while the probe reports offline and less
    than 24 hours after the write, in any later state of the browser that
    still holds that entry, resolves with the cached payload and status
    200, and nothing is dispatched. *)
Theorem offline_get_served_from_cache env1 env2 config config2 w later r text :
  let w1 := snd (axiosInstance env1 config w) in
  let k := List.length (delays (new_events w w1)) in
  let cacheData := JObj [("data", data r);
                         ("timestamp", JNum (now_response (env1 k)))] in
  method config = "get" -> isAuthEndpoint config = false ->
  method config2 = "get" -> url config2 = url config ->
  fst (axiosInstance env1 config w) = Resolved r ->
  onLine_request (env1 k) = true ->
  onLine_response (env1 k) = true ->
  blocked (localStorage w) = false ->
  JSON_stringify cacheData = Ok text -> text <> "" ->
  fits (localStorage w) (<[cache_item config := text]> (items (localStorage w))) = true ->
  JSON_parse text = Ok cacheData ->
  blocked (localStorage later) = false ->
  items (localStorage later) !! cache_item config =
    items (localStorage w1) !! cache_item config ->
  onLine_request (env2 O) = false ->
  now_request (env2 O) - now_response (env1 k) < DAY_MS ->
  fst (axiosInstance env2 config2 later) = Resolved (mkResponse (data r) 200 None) /\
  dispatched (new_events later (snd (axiosInstance env2 config2 later))) = [].
Proof.
  intros w1 k cacheData Hm Hna Hm2 Hu2 Hres Hon Honr Hb Hs Hne Hfit Hp
         Hbl Hkept Hoff Hfresh.
  destruct (request_resolved (S (retries (retryConfig w))) env1 O config w r
              ltac:(lia) Hres (or_introl Hon))
    as (a & c & wk & Hrep & Hr & Hk & Hmc & Hlk & Hw1).
  fold (axiosInstance env1 config w) in Hw1. fold w1 in Hw1.
  assert (Hl1 : localStorage w1 =
                mkStorage (<[cache_item config := text]> (items (localStorage w)))
                          false (fits (localStorage w))).
  { rewrite Hw1. simpl. rewrite Hr.
    rewrite (on_fulfilled_writes (env1 (List.length (delays (new_events w w1))))
               c a wk text).
    - by rewrite Hlk, Hk.
    - congruence.
    - exact Honr.
    - by rewrite Hlk.
    - subst cacheData k. by rewrite Hr in Hs.
    - by rewrite Hlk, Hk. }
  rewrite Hl1 in Hkept. simpl in Hkept. rewrite lookup_insert_eq in Hkept.
  assert (Hna2 : isAuthEndpoint config2 = false).
  { unfold isAuthEndpoint in *. by rewrite Hu2. }
  pose proof (attempt_offline (env2 O) config2 later Hoff Hna2) as Ha2.
  destruct (getAuthToken_frame later) as (Hl & _ & _ & _ & ws & Htr & Hd & _).
  erewrite offline_branch_hit in Ha2; cycle 1.
  - by rewrite Hl.
  - rewrite Hl.
    replace (cache_item (prepared later config2)) with (cache_item config).
    + exact Hkept.
    + rewrite prepared_cache_item. unfold cache_item, cacheKey. congruence.
  - exact Hne.
  - exact Hp.
  - reflexivity.
  - reflexivity.
  - exact Hfresh.
  - simpl in Ha2. apply axiosInstance_first_attempt in Ha2.
    rewrite Ha2. simpl. split; [done|].
    by rewrite (new_events_app _ _ _ Htr).
Qed.

(** Where [localStorage] can be read: a request issued while the probe
    reports offline to a path that is not an authentication endpoint, when
    the storage holds no cache entry under its key or holds one that is 24
    hours old or older, is rejected with the offline error, and nothing is
    dispatched. *)
Lemma offline_without_cache_fails env config w :
  onLine_request (env O) = false ->
  isAuthEndpoint config = false ->
  blocked (localStorage w) = false ->
  (items (localStorage w) !! cache_item config = None \/
   exists text parsed t,
     items (localStorage w) !! cache_item config = Some text /\
     JSON_parse text = Ok parsed /\
     get_prop parsed "timestamp" = Ok (JNum t) /\
     DAY_MS <= now_request (env O) - t) ->
  fst (axiosInstance env config w) = Rejected OfflineNoCache /\
  isOffline OfflineNoCache = true /\
  message OfflineNoCache =
    Some "No internet connection and no cached data available" /\
  dispatched (new_events w (snd (axiosInstance env config w))) = [].
Proof.
  intros Hoff Hna Hb Hmiss.
  pose proof (attempt_offline (env O) config w Hoff Hna) as Ha.
  destruct (getAuthToken_frame w) as (Hl & _ & _ & _ & ws & Htr & Hd & _).
  rewrite offline_branch_miss in Ha.
  - simpl in Ha. apply axiosInstance_first_attempt in Ha. rewrite Ha. simpl.
    repeat split; auto. by rewrite (new_events_app _ _ _ Htr).
  - by rewrite Hl.
  - rewrite Hl, prepared_cache_item. exact Hmiss.
Qed.


(** C5.  A request to an authentication endpoint is never intercepted
    offline: whatever the probe reports, at every attempt the request
    interceptor hands the request on, every attempt is dispatched (the
    dispatches are one more than the retry delays), and the outcome is the
    network's, neither the cached response nor the offline error. *)
Theorem auth_endpoint_always_dispatched env config w :
  isAuthEndpoint config = true ->
  (forall i w0, fst (request_interceptor (env i) config w0) =
                Ok (inl (prepared w0 config))) /\
  let evs := new_events w (snd (axiosInstance env config w)) in
  List.length (dispatched evs) = S (List.length (delays evs)) /\
  from_network (fst (axiosInstance env config w)).
Proof.
  intros Hauth. split.
  - intros i w0. apply request_interceptor_pass. by right.
  - assert (Hp : passes env config) by (intros j; by right).
    destruct (request_pass_summary (S (retries (retryConfig w))) env O config w
                Hp ltac:(lia)) as (o & w' & evs & Hreq & Htr & Hlen & Hnet).
    unfold axiosInstance. rewrite Hreq. simpl.
    by rewrite (new_events_app _ _ _ Htr).
Qed.

(** C6.  A request whose method is not GET leaves the whole of
    [localStorage] and [sessionStorage] as they were, for every behaviour of
    the probe, the clock and the network, and whatever the outcome. *)
Theorem non_get_writes_no_cache env config w :
  method config <> "get" ->
  localStorage (snd (axiosInstance env config w)) = localStorage w /\
  sessionStorage (snd (axiosInstance env config w)) = sessionStorage w /\
  fst (axiosInstance env config w) <> Pending.
Proof.
  intros Hm.
  destruct (axiosInstance_summary env config w)
    as (o & w' & evs & -> & Hop & (Hs & _) & Hng & _).
  simpl. auto.
Qed.

(** C9.  A request changes the stored state only at the cache entry of its
    own method and path: every other item of [localStorage], among them the
    token and the user, and the whole of [sessionStorage] are as before, so
    [getAuthToken] and [getUser] return what they returned before. *)
Theorem request_preserves_session env config w :
  let w' := snd (axiosInstance env config w) in
  (forall k, k <> cache_item config ->
             items (localStorage w') !! k = items (localStorage w) !! k) /\
  items (localStorage w') !! "token" = items (localStorage w) !! "token" /\
  items (localStorage w') !! "user" = items (localStorage w) !! "user" /\
  sessionStorage w' = sessionStorage w /\
  fst (getAuthToken w') = fst (getAuthToken w) /\
  fst (getUser w') = fst (getUser w).
Proof.
  destruct (axiosInstance_summary env config w)
    as (o & w' & evs & -> & Hop & Hsame & _).
  simpl. pose proof (same_but_cache_view _ _ _ Hsame) as Hview.
  destruct Hsame as (Hs & Hu & Hb & Hf & Hi).
  split; [exact Hi|].
  split; [apply Hi, cache_item_not_token|].
  split; [apply Hi, cache_item_not_user|].
  split; [exact Hs|].
  split; [by apply getAuthToken_view|].
  unfold getUser, getUser_try. unfold_monad.
  rewrite Hb, (Hi "user") by apply cache_item_not_user.
  destruct (blocked (localStorage w)); simpl; [done|].
  destruct (negb (truthy_item _)); simpl; [|by crunch].
  rewrite Hu. destruct (mobile_agent _); simpl; [|by crunch].
  rewrite Hs. by crunch.
Qed.

Lemma request_first_dispatch fuel env i config w :
  onLine_request (env i) = true \/ isAuthEndpoint config = true ->
  (retries (retryConfig w) < fuel)%nat ->
  exists rest,
    dispatched (new_events w (snd (request fuel env i config w))) =
      prepared w config :: rest.
Proof.
  intros Hpass Hfuel. destruct fuel as [|fuel]; [lia|]. simpl.
  assert (exists next w1 evs,
             attempt (env i) config w = (next, w1) /\
             attempt_post config w next w1 evs /\
             dispatched evs = [prepared w config])
    as (next & w1 & evs & -> & Hpost & Hd).
  { destruct (reply (env i)) as [a | msg code a] eqn:Hrep.
    - destruct (attempt_summary_fulfilled _ _ w _ Hpass Hrep)
        as (next & w1 & evs & ? & ? & _ & ?). by eauto 6.
    - destruct (attempt_summary_failed _ _ w _ _ _ Hpass Hrep)
        as (next & w1 & evs & ? & ? & _ & ?). by eauto 6. }
  destruct Hpost as (_ & _ & Htr & _ & Hnext).
  destruct next as [o | c].
  - simpl. rewrite (new_events_app _ _ _ Htr), Hd. by eexists.
  - destruct Hnext as (_ & _ & _ & _ & Hre & _).
    destruct (request_summary fuel env (S i) c w1 ltac:(lia))
      as (o & w2 & evs2 & -> & _ & _ & _ & Htr2 & _).
    simpl. rewrite Htr, <- app_assoc in Htr2.
    rewrite (new_events_app _ _ _ Htr2), dispatched_app, Hd. by eexists.
Qed.

(** C3, as amended.  When [getAuthToken] finds a token, every request the
    client dispatches carries it as a bearer Authorization header, at every
    attempt and for every path, the authentication endpoints included; and a
    request issued while the probe reports online, or to an authentication
    endpoint, is dispatched. *)
Theorem token_attached_to_every_dispatch env config w t :
  fst (getAuthToken w) = Ok (Some t) -> t <> "" ->
  let evs := new_events w (snd (axiosInstance env config w)) in
  Forall (fun c => headers c !! "Authorization" = Some (bearer t))
         (dispatched evs) /\
  (onLine_request (env O) = true \/ isAuthEndpoint config = true ->
   dispatched evs <> []).
Proof.
  intros Htok0 Hne.
  assert (Htok : token_of_view (token_view w) = Some t)
    by (rewrite getAuthToken_result in Htok0; congruence).
  clear Htok0. simpl. split.
  - destruct (axiosInstance_summary env config w)
      as (o & w' & evs & -> & _ & _ & _ & Htr & Hcar & _).
    simpl. rewrite (new_events_app _ _ _ Htr).
    eapply Forall_impl; [exact Hcar|].
    intros c (_ & _ & _ & Hh). rewrite Hh, Htok. unfold attach_token. simpl.
    assert (String.eqb t "" = false) as -> by (by apply String.eqb_neq).
    simpl. apply lookup_insert_eq.
  - intros Hpass.
    destruct (request_first_dispatch (S (retries (retryConfig w))) env O config w
                Hpass ltac:(lia)) as (rest & Hd).
    unfold axiosInstance. by rewrite Hd.
Qed.

(** C7, as amended.  After [clearAuth], [getAuthToken] returns null at every
    later call, and the request interceptor attaches no Authorization
    header to a request issued afterwards: every dispatch of the request,
    retries included, carries exactly the headers of the config it was
    issued with.  So a request issued without an Authorization header is
    dispatched without one; when the probe reports online or the path is
    an authentication endpoint it is dispatched, as the config it was
    issued with plus the reference to [retryConfig]; and a config that
    already carries the header, such as the one a retry re-issues, keeps
    it. *)
Theorem clearAuth_forgets_token env config w n :
  let wn := after_reads n (snd (clearAuth w)) in
  let sent_configs :=
    dispatched (new_events wn (snd (axiosInstance env config wn))) in
  fst (clearAuth w) = Ok tt /\
  fst (getAuthToken wn) = Ok None /\
  Forall (fun c => headers c = headers config) sent_configs /\
  (headers config !! "Authorization" = None ->
   Forall (fun c => headers c !! "Authorization" = None) sent_configs) /\
  (onLine_request (env O) = true \/ isAuthEndpoint config = true ->
   exists rest, sent_configs = set_retry config :: rest).
Proof.
  simpl.
  assert (Hget : fst (getAuthToken (after_reads n (snd (clearAuth w)))) = Ok None).
  { rewrite (getAuthToken_view _ (snd (clearAuth w))) by apply after_reads_view.
    apply clearAuth_then_getAuthToken. }
  split.
  { destruct (clearAuth_never_throws w) as ([] & ?). done. }
  split; [exact Hget|].
  assert (Hnone : token_of_view (token_view (after_reads n (snd (clearAuth w)))) = None).
  { rewrite getAuthToken_result in Hget. congruence. }
  assert (Hall : Forall (fun c => headers c = headers config)
                   (dispatched (new_events (after_reads n (snd (clearAuth w)))
                      (snd (axiosInstance env config
                              (after_reads n (snd (clearAuth w)))))))).
  { destruct (axiosInstance_summary env config (after_reads n (snd (clearAuth w))))
      as (o & w' & evs & -> & _ & _ & _ & Htr & Hcar & _).
    simpl. rewrite (new_events_app _ _ _ Htr).
    eapply Forall_impl; [exact Hcar|].
    intros c (_ & _ & _ & Hh). by rewrite Hh, Hnone. }
  split; [exact Hall|]. split.
  - intros Hno. eapply Forall_impl; [exact Hall|].
    intros c Hc. simpl in Hc. by rewrite Hc.
  - intros Hpass.
    destruct (request_first_dispatch
                (S (retries (retryConfig (after_reads n (snd (clearAuth w))))))
                env O config (after_reads n (snd (clearAuth w))) Hpass ltac:(lia))
      as (rest & Hd).
    exists rest. unfold axiosInstance. rewrite Hd.
    unfold prepared. by rewrite Hnone.
Qed.

Lemma write_fails_setItem k v st e :
  write_fails k v st e <-> setItem k v st = (Throw e, st).
Proof.
  unfold write_fails, setItem.
  destruct (blocked st); [|destruct (fits st _)]; split;
    try (intros [[? ?] | (? & ? & ?)]); try (intros [=]); subst;
    try discriminate; try done; auto.
Qed.












(** C10.  [setAuthToken] with a falsy token (null, undefined, the empty
    string) stores nothing: it removes the token from [localStorage] and
    from [sessionStorage] where they can be accessed, and afterwards
    [getAuthToken] returns null and [isAuthenticated] returns false. *)
Theorem setAuthToken_falsy_clears token w :
  truthy token = false ->
  let w' := snd (setAuthToken token w) in
  fst (setAuthToken token w) = Ok tt /\
  fst (getAuthToken w') = Ok None /\
  fst (isAuthenticated w') = Ok false /\
  (blocked (localStorage w) = false ->
   items (localStorage w') = delete "token" (items (localStorage w))) /\
  (blocked (localStorage w) = false -> blocked (sessionStorage w) = false ->
   items (sessionStorage w') = delete "token" (items (sessionStorage w))) /\
  (blocked (localStorage w) = true ->
   localStorage w' = localStorage w /\ sessionStorage w' = sessionStorage w).
Proof.
  intros Hf. simpl.
  pose proof (setAuthToken_falsy_then_getAuthToken token w Hf) as Hget.
  split.
  { destruct (setAuthToken_never_throws token w) as ([] & ?). done. }
  split; [exact Hget|].
  split.
  { unfold isAuthenticated, bind.
    destruct (getAuthToken (snd (setAuthToken token w))) as [r w2].
    simpl in Hget. by subst. }
  unfold setAuthToken, setAuthToken_try. rewrite Hf. unfold_monad.
  split; [|split].
  - intros Hl. rewrite Hl. simpl. by destruct (blocked (sessionStorage w)).
  - intros Hl Hs. rewrite Hl. simpl. by rewrite Hs.
  - intros Hl. by rewrite Hl.
Qed.

(** With [n] retries left on the shared counter, a request whose attempts
    are all dispatched and all fail transiently is sent [n + 1] times, with
    the configured delay before each retry, is then rejected, and leaves no
    retry for any later request. *)
Lemma axiosInstance_transient env config w :
  passes env config -> always_transient env ->
  let w' := snd (axiosInstance env config w) in
  List.length (dispatched (new_events w w')) = S (retries (retryConfig w)) /\
  delays (new_events w w') =
    replicate (retries (retryConfig w)) (retryDelay (retryConfig w)) /\
  retries (retryConfig w') = O /\
  exists error, fst (axiosInstance env config w) = Rejected error.
Proof.
  intros Hp Ht.
  destruct (request_transient (S (retries (retryConfig w))) env O config w
              Hp Ht ltac:(lia))
    as (error & w' & evs & Hreq & Htr & Hlen & Hdl & Hz & _).
  unfold axiosInstance. rewrite Hreq. simpl.
  rewrite (new_events_app _ _ _ Htr). eauto.
Qed.

End Claims.

(** * Further properties of the accessors and of the HTTP client *)

Section AccessorRoundTrips.
Context `{Runtime}.

Lemma isAuthenticated_result w :
  fst (isAuthenticated w) = Ok (truthy_item (token_of_view (token_view w))).
Proof.
  unfold isAuthenticated, bind. rewrite getAuthToken_run. done.
Qed.

Lemma isAuthenticated_world w :
  snd (isAuthenticated w) = snd (getAuthToken w).
Proof.
  unfold isAuthenticated, bind. rewrite getAuthToken_run. done.
Qed.

(** X1.  A non-empty token given to [setAuthToken] is what [getAuthToken]
    returns next, and [isAuthenticated] is then true, as soon as
    [localStorage] takes the write; what [sessionStorage] does is
    irrelevant. *)
Theorem setAuthToken_then_getAuthToken t w :
  t <> "" ->
  blocked (localStorage w) = false ->
  fits (localStorage w) (<["token" := t]> (items (localStorage w))) = true ->
  let w' := snd (setAuthToken (JStr t) w) in
  fst (getAuthToken w') = Ok (Some t) /\
  fst (isAuthenticated w') = Ok true /\
  items (localStorage w') !! "token" = Some t.
Proof.
  intros Hne Hb Hfit. simpl.
  assert (Hnb : String.eqb t "" = false) by (by apply String.eqb_neq).
  assert (Hview : token_of_view (token_view (snd (setAuthToken (JStr t) w))) = Some t
                  /\ items (localStorage (snd (setAuthToken (JStr t) w))) !! "token"
                     = Some t).
  { unfold setAuthToken, setAuthToken_try, token_of_view, token_view. simpl.
    rewrite Hnb. unfold_monad. simpl. rewrite Hb, Hfit. simpl.
    destruct (mobile_agent (userAgent w)); simpl.
    - destruct (blocked (sessionStorage w)); simpl;
        [| destruct (fits (sessionStorage w) _); simpl ];
        rewrite ?Hb, ?lookup_insert_eq; simpl; rewrite ?Hnb; done.
    - rewrite ?Hb, ?lookup_insert_eq. simpl. rewrite ?Hnb. done. }
  destruct Hview as [Hview Hitem].
  rewrite getAuthToken_result, isAuthenticated_result, Hview. simpl.
  by rewrite Hnb.
Qed.

(** X2.  The session copy is a backup on mobile agents only: after a token
    was stored and [localStorage] then lost it, [getAuthToken] still
    returns the token on a mobile agent and returns null on any other. *)
Theorem session_backup_is_mobile_only t w :
  t <> "" ->
  blocked (localStorage w) = false -> blocked (sessionStorage w) = false ->
  fits (localStorage w) (<["token" := t]> (items (localStorage w))) = true ->
  fits (sessionStorage w) (<["token" := t]> (items (sessionStorage w))) = true ->
  let stored := snd (setAuthToken (JStr t) w) in
  let lost := snd (localStorage_removeItem "token" stored) in
  fst (getAuthToken lost) =
    Ok (if mobile_agent (userAgent w) then Some t else None).
Proof.
  intros Hne Hb Hsb Hfit Hsfit. simpl.
  assert (Hnb : String.eqb t "" = false) by (by apply String.eqb_neq).
  rewrite getAuthToken_result.
  unfold setAuthToken, setAuthToken_try, token_of_view, token_view. simpl.
  rewrite Hnb. unfold_monad. simpl. rewrite Hb, Hfit. simpl.
  destruct (mobile_agent (userAgent w)) eqn:Hm; simpl.
  - rewrite Hsb, Hsfit. simpl. rewrite ?Hb. simpl.
    rewrite ?lookup_delete_eq. simpl. rewrite ?Hm, ?Hsb.
    by rewrite ?lookup_insert_eq.
  - rewrite ?Hb. simpl. rewrite ?lookup_delete_eq. simpl. by rewrite ?Hm.
Qed.

(** X3.  [getUser] after [setUser] returns the user that was stored, when
    [localStorage] takes the write and the JSON text reads back. *)
Theorem setUser_then_getUser user text w :
  JSON_stringify user = Ok text -> text <> "" ->
  JSON_parse text = Ok user ->
  blocked (localStorage w) = false ->
  fits (localStorage w) (<["user" := text]> (items (localStorage w))) = true ->
  fst (getUser (snd (setUser user w))) = Ok user /\
  items (localStorage (snd (setUser user w))) !! "user" = Some text.
Proof.
  intros Hs Hne Hp Hb Hfit.
  assert (Hnb : String.eqb text "" = false) by (by apply String.eqb_neq).
  unfold setUser, setUser_try, getUser, getUser_try. unfold_monad.
  rewrite Hs. simpl. rewrite Hb, Hfit. simpl.
  destruct (mobile_agent (userAgent w)); simpl.
  - destruct (blocked (sessionStorage w)); simpl;
      [| destruct (fits (sessionStorage w) _); simpl ];
      rewrite ?Hb, ?lookup_insert_eq; simpl; rewrite ?Hnb; simpl;
      rewrite ?Hnb, ?Hp; done.
  - rewrite ?Hb, ?lookup_insert_eq. simpl. rewrite ?Hnb. simpl.
    rewrite ?Hnb, ?Hp. done.
Qed.

End AccessorRoundTrips.

Section ClientFacts.
Context `{Runtime}.

Lemma offline_branch_depends env c1 c2 w1 w2 :
  cache_item c1 = cache_item c2 ->
  blocked (localStorage w1) = blocked (localStorage w2) ->
  items (localStorage w1) !! cache_item c1 = items (localStorage w2) !! cache_item c1 ->
  fst (offline_branch env c1 w1) = fst (offline_branch env c2 w2).
Proof.
  intros Hk Hb Hi. unfold offline_branch. unfold_monad.
  rewrite <- Hk, Hb, Hi. crunch; congruence.
Qed.

Lemma clearAuth_frame w :
  let w' := snd (clearAuth w) in
  blocked (localStorage w') = blocked (localStorage w) /\
  blocked (sessionStorage w') = blocked (sessionStorage w) /\
  userAgent w' = userAgent w /\
  retryConfig w' = retryConfig w /\
  forall k, k <> "token" -> k <> "user" ->
    items (localStorage w') !! k = items (localStorage w) !! k /\
    items (sessionStorage w') !! k = items (sessionStorage w) !! k.
Proof.
  unfold clearAuth, clearAuth_try. unfold_monad.
  destruct (blocked (localStorage w)) eqn:Hl; simpl; [by rewrite Hl|].
  destruct (blocked (sessionStorage w)) eqn:Hs; simpl.
  - repeat split; auto. by rewrite !lookup_delete_ne.
  - repeat split; auto; by rewrite !lookup_delete_ne.
Qed.

(** X4.  Logging out removes the token and the user and nothing else: every
    other item of both storage areas stays, the cached responses among
    them, so a request intercepted offline is answered after [clearAuth]
    exactly as before it. *)
Theorem clearAuth_keeps_cached_answers env config w :
  onLine_request (env O) = false -> isAuthEndpoint config = false ->
  fst (axiosInstance env config (snd (clearAuth w))) =
    fst (axiosInstance env config w) /\
  forall k, k <> "token" -> k <> "user" ->
    items (localStorage (snd (clearAuth w))) !! k = items (localStorage w) !! k /\
    items (sessionStorage (snd (clearAuth w))) !! k = items (sessionStorage w) !! k.
Proof.
  intros Hoff Hna.
  destruct (clearAuth_frame w) as (Hb & _ & _ & _ & Hi).
  split; [|exact Hi].
  pose proof (attempt_offline (env O) config w Hoff Hna) as Ha.
  pose proof (attempt_offline (env O) config (snd (clearAuth w)) Hoff Hna) as Ha'.
  apply axiosInstance_first_attempt in Ha, Ha'. rewrite Ha, Ha'. simpl.
  f_equal. apply offline_branch_depends.
  - by rewrite !prepared_cache_item.
  - destruct (getAuthToken_frame w) as (-> & _).
    destruct (getAuthToken_frame (snd (clearAuth w))) as (-> & _). exact Hb.
  - destruct (getAuthToken_frame w) as (-> & _).
    destruct (getAuthToken_frame (snd (clearAuth w))) as (-> & _).
    apply Hi; rewrite prepared_cache_item.
    + intros Heq. by apply (cache_item_not_token config).
    + intros Heq. by apply (cache_item_not_user config).
Qed.

(** The retries a request uses are taken from the shared counter. *)
Lemma request_budget fuel : forall env i config w,
  (retries (retryConfig w) < fuel)%nat ->
  exists evs,
    let w' := snd (request fuel env i config w) in
    trace w' = (trace w ++ evs)%list /\
    (retries (retryConfig w') + List.length (delays evs))%nat =
      retries (retryConfig w) /\
    retryDelay (retryConfig w') = retryDelay (retryConfig w).
Proof.
  induction fuel as [|fuel IH]; intros env i config w Hfuel; [lia|].
  simpl.
  destruct (attempt_summary (env i) config w)
    as (next & w1 & evs & -> & _ & _ & Htr & _ & Hnext).
  destruct next as [o | c].
  - destruct Hnext as (_ & Hrc & Hdl). exists evs. simpl.
    rewrite Hrc, Hdl. simpl. split; [done|]. split; [lia | done].
  - destruct Hnext as (_ & _ & Hdl & Hrd & Hre & _).
    destruct (IH env (S i) c w1 ltac:(lia)) as (evs2 & Htr2 & Hsum & Hrd2).
    exists (evs ++ evs2)%list. simpl in *.
    split; [rewrite Htr2, Htr; by rewrite <- app_assoc|].
    rewrite delays_app, length_app, Hdl. simpl. split; [lia | congruence].
Qed.

(** One run of the rejected handler of the response interceptor: either it
    schedules a retry of the config of the error, taking one retry from the
    shared counter and waiting [retryDelay] once, or it settles and leaves
    the world as it is.  The handler runs to its end without giving way to
    other code, so this holds however the requests of the client
    interleave. *)
Lemma on_rejected_step error w :
  match on_rejected error w with
  | (Ok (RetryWith c), w') =>
      error_config error = Some c /\
      (0 < retries (retryConfig w))%nat /\
      retryCondition error = true /\
      S (retries (retryConfig w')) = retries (retryConfig w) /\
      retryDelay (retryConfig w') = retryDelay (retryConfig w) /\
      localStorage w' = localStorage w /\
      sessionStorage w' = sessionStorage w /\
      trace w' = (trace w ++ [Delay (retryDelay (retryConfig w))])%list
  | (Ok (Settle o), w') => w' = w /\ o <> Pending
  | (Throw _, _) => False
  end.
Proof.
  unfold on_rejected, get_retries, get_retryDelay, decrement_retries.
  unfold_monad.
  destruct error as [r | | e | msg c code r]; simpl; try done.
  destruct (bool_decide (is_Some (retry c))) eqn:Hr; simpl; [|done].
  destruct (0 <? retries (retryConfig w))%nat eqn:Hn; simpl; [|done].
  destruct (retryCondition (AxiosError msg c code r)) eqn:Hc; simpl; [|done].
  apply Nat.ltb_lt in Hn. repeat split; auto. lia.
Qed.

(** X5.  Each time the rejected handler of the response interceptor
    schedules a retry it takes exactly one retry from the shared counter
    and waits the configured [retryDelay] once; when it settles it leaves
    the counter as it is.  Hence, for a request that runs on its own, with
    no other request of the client in flight between its first attempt and
    its outcome, the retries left afterwards plus the retry delays it
    waited equal the retries left before; every delay is the configured
    [retryDelay]; and there is at most one dispatch more than delays. *)
Theorem retries_are_conserved env config w :
  let w' := snd (axiosInstance env config w) in
  let evs := new_events w w' in
  (retries (retryConfig w') + List.length (delays evs))%nat =
    retries (retryConfig w) /\
  retryDelay (retryConfig w') = retryDelay (retryConfig w) /\
  Forall (fun ms => ms = retryDelay (retryConfig w)) (delays evs) /\
  (List.length (dispatched evs) <= 1 + List.length (delays evs))%nat /\
  (forall error w0,
      match on_rejected error w0 with
      | (Ok (RetryWith c), w1) =>
          error_config error = Some c /\
          S (retries (retryConfig w1)) = retries (retryConfig w0) /\
          retryDelay (retryConfig w1) = retryDelay (retryConfig w0) /\
          new_events w0 w1 = [Delay (retryDelay (retryConfig w0))]
      | (Ok (Settle o), w1) => w1 = w0
      | (Throw _, _) => False
      end).
Proof.
  simpl.
  destruct (request_budget (S (retries (retryConfig w))) env O config w ltac:(lia))
    as (evs & Htr & Hsum & Hrd).
  destruct (axiosInstance_summary env config w)
    as (o & w' & evs' & Heq & _ & _ & _ & Htr' & _ & Hdl & Hlen).
  unfold axiosInstance in *. rewrite Heq in *. simpl in *.
  rewrite (new_events_app _ _ _ Htr).
  rewrite Htr' in Htr. apply app_inv_head in Htr. subst evs'.
  repeat split; auto.
  intros error w0. pose proof (on_rejected_step error w0) as Hstep.
  destruct (on_rejected error w0) as [[[o1 | c] | e] w1]; [tauto | | done].
  destruct Hstep as (Hc & _ & _ & Hre & Hrd1 & _ & _ & Htr1).
  repeat split; auto. by apply new_events_app.
Qed.

(** X6.  A failure that [retryCondition] rejects (a 4xx response, or a
    network error whose code is neither NETWORK_ERROR nor TIMEOUT) is not
    retried: the request is dispatched once and rejected with the error of
    that dispatch, unchanged, and the retry counter is not touched. *)
Theorem non_transient_failure_is_passed_through env config w msg code a :
  let c := prepared w config in
  let error := AxiosError msg c code (option_map (response_of c) a) in
  let w' := snd (axiosInstance env config w) in
  onLine_request (env O) = true \/ isAuthEndpoint config = true ->
  reply (env O) = Failed msg code a ->
  retryCondition error = false ->
  fst (axiosInstance env config w) = Rejected error /\
  dispatched (new_events w w') = [c] /\
  delays (new_events w w') = [] /\
  retryConfig w' = retryConfig w /\
  localStorage w' = localStorage w.
Proof.
  intros c error w' Hpass Hrep Hcond. subst w'.
  pose proof (attempt_failed (env O) config w msg code a Hpass Hrep) as Ha.
  simpl in Ha. fold c in Ha. fold error in Ha.
  rewrite Hcond, andb_false_r in Ha.
  apply axiosInstance_first_attempt in Ha. rewrite Ha. simpl.
  destruct (getAuthToken_frame w) as (Hl & _ & _ & Hrc & ws & Htr & Hd & Hdl).
  split; [done|].
  assert (Htr' : trace (sent c (snd (getAuthToken w))) =
                 (trace w ++ ws ++ [Dispatch c])%list).
  { unfold sent. simpl. rewrite Htr. by rewrite <- app_assoc. }
  rewrite (new_events_app _ _ _ Htr'), dispatched_app, delays_app, Hd, Hdl.
  unfold sent. simpl. by repeat split.
Qed.

(** X7.  A request intercepted offline goes nowhere: nothing is dispatched,
    no retry is made, the retry counter and both storage areas are as
    before, whatever the cache holds; and the outcome is the synthetic
    response with status 200, the offline error, or the exception raised
    while reading the cache. *)
Theorem offline_request_stays_local env config w :
  let o := fst (axiosInstance env config w) in
  let w' := snd (axiosInstance env config w) in
  onLine_request (env O) = false -> isAuthEndpoint config = false ->
  dispatched (new_events w w') = [] /\
  delays (new_events w w') = [] /\
  retryConfig w' = retryConfig w /\
  localStorage w' = localStorage w /\
  sessionStorage w' = sessionStorage w /\
  ((exists d, o = Resolved (mkResponse d 200 None)) \/
   o = Rejected OfflineNoCache \/
   exists e, o = Rejected (Uncaught e)).
Proof.
  intros o w' Hoff Hna. subst o w'.
  pose proof (attempt_offline (env O) config w Hoff Hna) as Ha.
  apply axiosInstance_first_attempt in Ha. rewrite Ha. simpl.
  destruct (getAuthToken_frame w) as (Hl & Hs & _ & Hrc & ws & Htr & Hd & Hdl).
  rewrite (new_events_app _ _ _ Htr).
  repeat (split; [done|]).
  destruct (fst (offline_branch _ _ _)) as [r|e] eqn:Hob; simpl.
  - destruct (offline_branch_kind _ _ _ _ Hob) as [-> | [d ->]]; simpl; eauto.
  - eauto.
Qed.

(** X8.  A cache entry that cannot be read back rejects the offline
    request with the exception itself, not with the offline error: the
    SyntaxError of [JSON.parse] for a malformed text, a TypeError for the
    text [null]. *)
Theorem unreadable_cache_entry_rejects env config w text e :
  onLine_request (env O) = false -> isAuthEndpoint config = false ->
  blocked (localStorage w) = false ->
  items (localStorage w) !! cache_item config = Some text -> text <> "" ->
  (JSON_parse text = Throw e \/ (JSON_parse text = Ok JNull /\ e = TypeError)) ->
  fst (axiosInstance env config w) = Rejected (Uncaught e).
Proof.
  intros Hoff Hna Hb Hi Hne Hparse.
  pose proof (attempt_offline (env O) config w Hoff Hna) as Ha.
  apply axiosInstance_first_attempt in Ha. rewrite Ha. simpl.
  destruct (getAuthToken_frame w) as (Hl & _).
  assert (Hnb : String.eqb text "" = false) by (by apply String.eqb_neq).
  unfold offline_branch. unfold_monad.
  rewrite Hl, Hb, prepared_cache_item, Hi. simpl. rewrite Hnb. simpl.
  destruct Hparse as [-> | [-> ->]]; done.
Qed.

(** X9.  A GET that resolves with a response received while the probe
    reports online, authentication endpoints included, replaces the one
    entry under its key and leaves every other item where it was: the
    store holds one entry per method and path, the last one written. *)
Theorem cached_get_replaces_one_entry env config w r text :
  let w1 := snd (axiosInstance env config w) in
  let k := List.length (delays (new_events w w1)) in
  method config = "get" ->
  fst (axiosInstance env config w) = Resolved r ->
  onLine_request (env k) = true \/ isAuthEndpoint config = true ->
  onLine_response (env k) = true ->
  blocked (localStorage w) = false ->
  JSON_stringify (JObj [("data", data r);
                        ("timestamp", JNum (now_response (env k)))]) = Ok text ->
  fits (localStorage w) (<[cache_item config := text]> (items (localStorage w))) = true ->
  items (localStorage w1) = <[cache_item config := text]> (items (localStorage w)) /\
  sessionStorage w1 = sessionStorage w.
Proof.
  intros w1 k Hm Hres Hpass Honr Hb Hs Hfit.
  destruct (request_resolved (S (retries (retryConfig w))) env O config w r
              ltac:(lia) Hres Hpass)
    as (a & c & wk & Hrep & Hr & Hk & Hmc & Hlk & Hw1).
  fold (axiosInstance env config w) in Hw1. fold w1 in Hw1.
  split.
  - rewrite Hw1. rewrite Hr.
    rewrite (on_fulfilled_writes (env (List.length (delays (new_events w w1))))
               c a wk text).
    + simpl. by rewrite Hlk, Hk.
    + congruence.
    + exact Honr.
    + by rewrite Hlk.
    + subst k. by rewrite Hr in Hs.
    + by rewrite Hlk, Hk.
  - destruct (axiosInstance_summary env config w)
      as (o & w' & evs & Heq & _ & (Hss & _) & _).
    subst w1. by rewrite Heq.
Qed.

Lemma on_fulfilled_offline env c a w :
  onLine_response env = false ->
  snd (on_fulfilled env (response_of c a) w) = w.
Proof.
  intros Hoff. unfold on_fulfilled. simpl. rewrite Hoff, andb_false_r.
  unfold_monad. done.
Qed.

Lemma attempt_keeps_local env config w :
  onLine_response env = false ->
  localStorage (snd (attempt env config w)) = localStorage w.
Proof.
  intros Hoff.
  destruct (getAuthToken_frame w) as (Hl & _).
  destruct (onLine_request env) eqn:Hon;
    [| destruct (isAuthEndpoint config) eqn:Hauth ].
  3:{ by rewrite (attempt_offline _ _ _ Hon Hauth). }
  all: assert (onLine_request env = true \/ isAuthEndpoint config = true)
         as Hpass by auto.
  all: destruct (reply env) as [a | msg code a] eqn:Hrep.
  1,3: rewrite (attempt_fulfilled _ _ _ _ Hpass Hrep); simpl;
       rewrite on_fulfilled_offline by done; exact Hl.
  all: rewrite (attempt_failed _ _ _ _ _ _ Hpass Hrep);
       destruct (_ && _); exact Hl.
Qed.

Lemma request_keeps_local fuel : forall env i config w,
  (forall j, onLine_response (env j) = false) ->
  localStorage (snd (request fuel env i config w)) = localStorage w.
Proof.
  induction fuel as [|fuel IH]; intros env i config w Hoff; [done|].
  simpl. pose proof (attempt_keeps_local (env i) config w (Hoff i)) as Ha.
  destruct (attempt (env i) config w) as [[o | c] w1]; simpl in *; [done|].
  rewrite IH by done. exact Ha.
Qed.

(** X10.  Nothing is cached unless the probe reports online when the
    response arrives: a request all of whose responses are handled while
    the probe reports offline leaves [localStorage] as it was, also when it
    is a GET that succeeds. *)
Theorem no_cache_write_while_probe_offline env config w :
  (forall j, onLine_response (env j) = false) ->
  localStorage (snd (axiosInstance env config w)) = localStorage w.
Proof. intros Hoff. by apply request_keeps_local. Qed.

Lemma request_rejected fuel : forall env i config w msg c code resp,
  (retries (retryConfig w) < fuel)%nat ->
  fst (request fuel env i config w) = Rejected (AxiosError msg c code resp) ->
  let w' := snd (request fuel env i config w) in
  let k := (i + List.length (delays (new_events w w')))%nat in
  exists a,
    reply (env k) = Failed msg code a /\
    resp = option_map (response_of c) a /\
    cache_item c = cache_item config /\
    (retries (retryConfig w') = O \/
     retryCondition (AxiosError msg c code resp) = false).
Proof.
  induction fuel as [|fuel IH]; intros env i config w msg c code resp Hfuel; [lia|].
  simpl.
  destruct (attempt_summary (env i) config w)
    as (next & w1 & evs & Hatt & Hsame & Hng & Htr & Hdisp & Hnext).
  rewrite Hatt. destruct next as [o | c'].
  - simpl. intros ->. destruct Hnext as (_ & Hrc & Hdl).
    rewrite (new_events_app _ _ _ Htr), Hdl. simpl. rewrite Nat.add_0_r.
    destruct (onLine_request (env i)) eqn:Hon;
      [| destruct (isAuthEndpoint config) eqn:Hauth ].
    3:{ rewrite (attempt_offline _ _ _ Hon Hauth) in Hatt.
        injection Hatt as Ho _.
        destruct (fst (offline_branch _ _ _)) as [rej|e] eqn:Hob; simpl in Ho;
          [|discriminate].
        destruct (offline_branch_kind _ _ _ _ Hob) as [-> | [d ->]];
          discriminate. }
    all: assert (onLine_request (env i) = true \/ isAuthEndpoint config = true)
           as Hpass by auto.
    all: destruct (reply (env i)) as [a | msg' code' a] eqn:Hrep.
    1,3: rewrite (attempt_fulfilled _ _ _ _ Hpass Hrep) in Hatt; discriminate.
    all: rewrite (attempt_failed _ _ _ _ _ _ Hpass Hrep) in Hatt.
    all: destruct (_ && _) eqn:Hretry; [discriminate|].
    all: injection Hatt as Hmsg Hc Hcode Hresp Hw.
    all: subst msg' code' c resp.
    all: exists a; split; [done|]; split; [done|].
    all: split; [apply prepared_cache_item|].
    all: apply andb_false_iff in Hretry as [Hz | Hc]; [left | right; exact Hc].
    all: apply Nat.ltb_ge in Hz; rewrite Hrc; lia.
  - destruct Hnext as (-> & Hd & Hdl & Hrd & Hre & Hloc).
    destruct (request_summary fuel env (S i) (prepared w config) w1 ltac:(lia))
      as (o & w2 & evs2 & Hreq & _ & _ & _ & Htr2 & _).
    intros Hres.
    specialize (IH env (S i) (prepared w config) w1 msg c code resp ltac:(lia) Hres).
    rewrite Hreq in *. cbn [fst snd] in *.
    rewrite (new_events_app _ _ _ Htr2) in IH.
    rewrite Htr, <- app_assoc in Htr2.
    rewrite (new_events_app _ _ _ Htr2), delays_app, Hdl, length_app.
    cbn [List.length Nat.add].
    replace (i + S (List.length (delays evs2)))%nat
      with (S i + List.length (delays evs2))%nat by lia.
    destruct IH as (a & Hrep & Hresp & Hk & Hgive).
    exists a. rewrite prepared_cache_item in Hk. by repeat split.
Qed.

(** X11.  The error a caller receives from the network is the error of the
    last attempt, as axios built it: same message, code and response.  And
    the client gives up only when that error is not one to retry or when
    the shared counter has reached 0. *)
Theorem rejection_is_the_last_error env config w msg c code resp :
  let w' := snd (axiosInstance env config w) in
  let k := List.length (delays (new_events w w')) in
  fst (axiosInstance env config w) = Rejected (AxiosError msg c code resp) ->
  exists a,
    reply (env k) = Failed msg code a /\
    resp = option_map (response_of c) a /\
    cache_item c = cache_item config /\
    (retries (retryConfig w') = O \/
     retryCondition (AxiosError msg c code resp) = false).
Proof.
  intros w' k Hres.
  apply (request_rejected (S (retries (retryConfig w))) env O config w
           msg c code resp ltac:(lia) Hres).
Qed.

End ClientFacts.

Section AuthEndpointTest.
Context `{Runtime}.

Lemma prefix_append n b : String.prefix n (String.append n b) = true.
Proof.
  induction n as [|c n IH]; [destruct b; reflexivity|].
  change (String.append (String c n) b) with (String c (String.append n b)).
  cbn [String.prefix]. by destruct (Ascii.ascii_dec c c).
Qed.

Lemma includes_append a n b :
  includes n (String.append a (String.append n b)) = true.
Proof.
  induction a as [|c a IH].
  - change (String.append "" (String.append n b)) with (String.append n b).
    destruct n as [|c n]; [by destruct b|].
    change (String.append (String c n) b) with (String c (String.append n b)).
    unfold includes; fold includes.
    change (String c (String.append n b)) with (String.append (String c n) b).
    by rewrite prefix_append.
  - change (String.append (String c a) (String.append n b))
      with (String c (String.append a (String.append n b))).
    unfold includes; fold includes. rewrite IH. apply orb_true_r.
Qed.

(** X20.  The test for an authentication endpoint is a substring test: a
    request whose URL has [/auth/] anywhere in it, not only at its start,
    is never intercepted offline; the request interceptor hands it on at
    every attempt, whatever the probe reports. *)
Theorem any_url_containing_auth_skips_the_cache
    (env : nat -> Attempt) config a b w i :
  url config = String.append a (String.append "/auth/" b) ->
  isAuthEndpoint config = true /\
  fst (request_interceptor (env i) config w) = Ok (inl (prepared w config)).
Proof.
  intros Hurl.
  assert (Hauth : isAuthEndpoint config = true).
  { unfold isAuthEndpoint. rewrite Hurl. apply includes_append. }
  split; [exact Hauth|]. apply request_interceptor_pass. by right.
Qed.

End AuthEndpointTest.

(** * Properties of the application shell *)

Section ShellFacts.
Context `{Runtime}.

Lemma getUser_depends w1 w2 :
  user_view w1 = user_view w2 -> fst (getUser w1) = fst (getUser w2).
Proof.
  unfold user_view. intros [= Hb Hi Hsb Hsi Hu].
  unfold getUser, getUser_try. unfold_monad.
  rewrite Hb, Hi.
  destruct (blocked (localStorage w2)); simpl; [done|].
  destruct (negb (truthy_item _)); simpl; [|by crunch].
  rewrite Hu. destruct (mobile_agent _); simpl; [|by crunch].
  rewrite Hsb, Hsi. by crunch.
Qed.

(** [getUser] only reads. *)
Lemma getUser_frame w :
  let w' := snd (getUser w) in
  localStorage w' = localStorage w /\
  sessionStorage w' = sessionStorage w /\
  userAgent w' = userAgent w /\
  retryConfig w' = retryConfig w.
Proof.
  unfold getUser, getUser_try. unfold_monad. crunch; by repeat split.
Qed.

Lemma getUser_run w : getUser w = (Ok (stored_user w), snd (getUser w)).
Proof.
  unfold stored_user. destruct (getUser_never_throws w) as [u Hu].
  destruct (getUser w) as [r w']. simpl in *. by subst.
Qed.

Lemma isAuthenticated_run w :
  isAuthenticated w = (Ok (authenticated w), snd (getAuthToken w)).
Proof.
  unfold authenticated.
  rewrite <- isAuthenticated_result, <- isAuthenticated_world.
  by destruct (isAuthenticated w).
Qed.

Lemma getUser_keeps_views w :
  token_view (snd (getUser w)) = token_view w /\
  user_view (snd (getUser w)) = user_view w.
Proof.
  destruct (getUser_frame w) as (Hl & Hs & Hu & _).
  unfold token_view, user_view. by rewrite Hl, Hs, Hu.
Qed.

Lemma getAuthToken_keeps_user_view w :
  user_view (snd (getAuthToken w)) = user_view w.
Proof.
  destruct (getAuthToken_frame w) as (Hl & Hs & Hu & _).
  unfold user_view. by rewrite Hl, Hs, Hu.
Qed.

Lemma authenticated_view w1 w2 :
  token_view w1 = token_view w2 -> authenticated w1 = authenticated w2.
Proof. unfold authenticated. by intros ->. Qed.

Lemma stored_user_view w1 w2 :
  user_view w1 = user_view w2 -> stored_user w1 = stored_user w2.
Proof. intros Hv. unfold stored_user. by rewrite (getUser_depends _ _ Hv). Qed.

Lemma get_prop_truthy user name :
  truthy user = true -> get_prop user name = Ok (optional_prop user name).
Proof. by destruct user. Qed.

Lemma ProtectedRoute_result children w :
  fst (ProtectedRoute children w) =
    Ok (if authenticated w then children else Navigate "/auth").
Proof. unfold ProtectedRoute, bind. by rewrite isAuthenticated_run. Qed.

Lemma ProtectedRoute_world children w :
  snd (ProtectedRoute children w) = snd (getAuthToken w).
Proof. unfold ProtectedRoute, bind. by rewrite isAuthenticated_run. Qed.

Lemma RoleProtectedRoute_result roles children w :
  fst (RoleProtectedRoute roles children w) =
    Ok (role_guard roles (authenticated w) (stored_user w) children).
Proof.
  unfold RoleProtectedRoute, bind at 1. rewrite getUser_run.
  unfold bind at 1. rewrite isAuthenticated_run.
  rewrite (authenticated_view _ w) by apply getUser_keeps_views.
  unfold role_guard.
  destruct (authenticated w); simpl; [|done].
  destruct (truthy (stored_user w)) eqn:Ht; simpl; [|done].
  unfold bind, lift. rewrite (get_prop_truthy _ _ Ht).
  by destruct (includes_role _ _).
Qed.

Lemma RoleProtectedRoute_world roles children w :
  snd (RoleProtectedRoute roles children w) =
    snd (getAuthToken (snd (getUser w))).
Proof.
  unfold RoleProtectedRoute, bind at 1. rewrite getUser_run.
  unfold bind at 1. rewrite isAuthenticated_run.
  destruct (negb _); simpl; [done|].
  destruct (negb _); simpl; [done|].
  unfold bind, lift. destruct (get_prop _ _); simpl; [|done].
  by destruct (negb _).
Qed.

Lemma route_element_views isAuth r w :
  token_view (snd (route_element isAuth r w)) = token_view w /\
  user_view (snd (route_element isAuth r w)) = user_view w.
Proof.
  unfold route_element. destruct (route_guard r).
  - done.
  - rewrite ProtectedRoute_world.
    split; [apply getAuthToken_keeps_view | apply getAuthToken_keeps_user_view].
  - rewrite RoleProtectedRoute_world.
    rewrite getAuthToken_keeps_view, getAuthToken_keeps_user_view.
    apply getUser_keeps_views.
Qed.

Lemma route_element_result isAuth r w :
  fst (route_element isAuth r w) =
    Ok match route_guard r with
       | Public => if isAuth then Navigate "/dashboard" else Page (route_page r)
       | Protected =>
           if authenticated w then Page (route_page r) else Navigate "/auth"
       | RoleProtected roles =>
           role_guard roles (authenticated w) (stored_user w) (Page (route_page r))
       end.
Proof.
  unfold route_element. destruct (route_guard r).
  - done.
  - apply ProtectedRoute_result.
  - apply RoleProtectedRoute_result.
Qed.

Lemma in_routes r :
  In r routes ->
  (route_guard r = Public /\
   (route_page r = "LandingPage" \/ route_page r = "AuthPage")) \/
  route_guard r = Protected \/
  exists roles, route_guard r = RoleProtected roles.
Proof.
  unfold routes. simpl. intros Hin.
  repeat (destruct Hin as [<- | Hin]; [simpl; eauto 6 |]).
  done.
Qed.

(** X12.  A visitor without a token never sees a page other than the
    landing page and the login page: every other route of the table
    redirects to [/auth], whatever user is stored. *)
Theorem unauthenticated_visitor_is_sent_to_login r w :
  In r routes ->
  fst (isAuthenticated w) = Ok false ->
  fst (route_element false r w) = Ok (Navigate "/auth") \/
  (fst (route_element false r w) = Ok (Page (route_page r)) /\
   (route_page r = "LandingPage" \/ route_page r = "AuthPage")).
Proof.
  intros Hin Hauth. rewrite isAuthenticated_run in Hauth.
  injection Hauth as Hauth. rewrite route_element_result.
  destruct (in_routes r Hin) as [[-> Hpage] | [-> | [roles ->]]].
  - right. by split.
  - left. by rewrite Hauth.
  - left. unfold role_guard. by rewrite Hauth.
Qed.

(** X13.  With [isAuth] in step with the stored token, no route of the
    table starts a chain of redirects: it renders its page, or it
    redirects to a route of the table that renders its page. *)
Theorem redirects_end_on_a_page r w :
  In r routes ->
  let isAuth := authenticated w in
  fst (isAuthenticated w) = Ok isAuth /\
  (fst (route_element isAuth r w) = Ok (Page (route_page r)) \/
   exists p r',
     fst (route_element isAuth r w) = Ok (Navigate p) /\
     route_at p = Some r' /\
     fst (route_element isAuth r' (snd (route_element isAuth r w))) =
       Ok (Page (route_page r'))).
Proof.
  intros Hin isAuth. split; [by rewrite isAuthenticated_run|].
  assert (Hdash : forall w0, authenticated w0 = true ->
            route_at "/dashboard" = Some (mkRoute "/dashboard" Protected "StudentDashboard") /\
            fst (route_element true (mkRoute "/dashboard" Protected "StudentDashboard") w0)
              = Ok (Page "StudentDashboard")).
  { intros w0 Ha. split; [done|]. rewrite route_element_result. simpl. by rewrite Ha. }
  assert (Hlogin : forall w0,
            route_at "/auth" = Some (mkRoute "/auth" Public "AuthPage") /\
            fst (route_element false (mkRoute "/auth" Public "AuthPage") w0)
              = Ok (Page "AuthPage")).
  { intros w0. split; [done|]. by rewrite route_element_result. }
  pose proof (route_element_views isAuth r w) as [Hv _].
  apply authenticated_view in Hv. fold isAuth in Hv.
  rewrite (route_element_result isAuth r w). subst isAuth.
  destruct (in_routes r Hin) as [[Hg Hpage] | [Hg | [roles Hg]]];
    rewrite Hg in *.
  - destruct (authenticated w) eqn:Ha.
    + right. destruct (Hdash _ Hv) as [Hat Hel]. by eexists _, _.
    + by left.
  - destruct (authenticated w) eqn:Ha.
    + by left.
    + right. destruct (Hlogin (snd (route_element false r w))) as [Hat Hel].
      by eexists _, _.
  - unfold role_guard. destruct (authenticated w) eqn:Ha; simpl.
    + destruct (truthy (stored_user w)); simpl;
        [destruct (includes_role roles _); [by left|] |];
        right; destruct (Hdash _ Hv) as [Hat Hel]; by eexists _, _.
    + right. destruct (Hlogin (snd (route_element false r w))) as [Hat Hel].
      by eexists _, _.
Qed.

(** X14.  A role-protected route renders its page exactly when a token is
    stored and the stored user has a role, a string, that is among the
    allowed ones; without a token it redirects to [/auth], whatever the
    user. *)
Theorem RoleProtectedRoute_admits_allowed_roles roles page w :
  (fst (RoleProtectedRoute roles (Page page) w) = Ok (Page page) <->
   fst (isAuthenticated w) = Ok true /\
   exists user role,
     fst (getUser w) = Ok user /\
     optional_prop user "role" = JStr role /\ In role roles) /\
  (fst (isAuthenticated w) = Ok false ->
   fst (RoleProtectedRoute roles (Page page) w) = Ok (Navigate "/auth")).
Proof.
  rewrite RoleProtectedRoute_result, isAuthenticated_run, getUser_run. simpl.
  unfold role_guard. split; [split|].
  - destruct (authenticated w); simpl; [|discriminate].
    destruct (truthy (stored_user w)); simpl; [|discriminate].
    destruct (includes_role roles _) eqn:Hinc; [|discriminate].
    intros _. split; [done|].
    unfold includes_role in Hinc.
    destruct (optional_prop (stored_user w) "role") as [| | | |role| |] eqn:Hrole;
      try discriminate.
    apply existsb_exists in Hinc as (x & Hx & Heq).
    apply String.eqb_eq in Heq. subst x. by eexists _, _.
  - intros ([= ->] & user & role & [= <-] & Hrole & Hin). simpl.
    assert (truthy (stored_user w) = true) as ->.
    { destruct (stored_user w); try discriminate; done. }
    simpl. rewrite Hrole. simpl.
    assert (existsb (String.eqb role) roles = true) as ->; [|done].
    apply existsb_exists. exists role. split; [done|]. apply String.eqb_refl.
  - by intros [= ->].
Qed.

Lemma in_filteredMainNav user item :
  In item (filteredMainNav user) ->
  includes_role (nav_roles item) (optional_prop user "role") = true /\
  In item mainNavItems.
Proof.
  unfold filteredMainNav. intros Hin. apply filter_In in Hin as [Hin Hinc].
  by split.
Qed.

(** X15.  The navigation bar has no dead link: every item it shows to the
    stored user leads to a route of the table whose guard, for that same
    token and user, renders the page. *)
Theorem nav_items_lead_to_pages w items item :
  fst (NavigationBar w) = Ok (Some items) ->
  fst (isAuthenticated w) = Ok true ->
  In item items ->
  exists r,
    route_at (nav_path item) = Some r /\
    fst (route_element true r w) = Ok (Page (route_page r)).
Proof.
  intros Hnav Hauth Hin. rewrite isAuthenticated_run in Hauth.
  injection Hauth as Hauth.
  unfold NavigationBar, bind in Hnav. rewrite getUser_run in Hnav.
  destruct (truthy (stored_user w)) eqn:Ht; simpl in Hnav; [|discriminate].
  injection Hnav as <-.
  apply in_filteredMainNav in Hin as [Hinc Hin].
  unfold mainNavItems in Hin. simpl in Hin.
  repeat (destruct Hin as [<- | Hin];
          [ eexists; split; [reflexivity|];
            rewrite route_element_result; simpl; unfold role_guard;
            rewrite Hauth; simpl in *; rewrite ?Ht, ?Hinc; reflexivity |]).
  done.
Qed.

Lemma clearAuth_then_getUser w : fst (getUser (snd (clearAuth w))) = Ok JNull.
Proof.
  unfold clearAuth, clearAuth_try, getUser, getUser_try. unfold_monad.
  destruct (blocked (localStorage w)) eqn:Hl; simpl; [by rewrite Hl|].
  destruct (blocked (sessionStorage w)) eqn:Hs; simpl.
  - rewrite lookup_delete_eq. simpl.
    destruct (mobile_agent _); simpl; [by rewrite Hs | done].
  - rewrite lookup_delete_eq. simpl.
    destruct (mobile_agent _); simpl; [|done].
    by rewrite lookup_delete_eq.
Qed.

(** X16.  Logging out works for every state of the storage: [handleLogout]
    sets [isAuth] to false and navigates to [/auth]; afterwards the
    navigation bar renders nothing, [/auth] shows the login page, and every
    guarded route redirects to [/auth]. *)
Theorem logout_closes_every_route w r :
  let w' := snd (handleLogout w) in
  fst (handleLogout w) = Ok (false, "/auth") /\
  fst (NavigationBar w') = Ok None /\
  route_at "/auth" = Some (mkRoute "/auth" Public "AuthPage") /\
  fst (route_element false (mkRoute "/auth" Public "AuthPage") w') =
    Ok (Page "AuthPage") /\
  (route_guard r <> Public ->
   fst (route_element false r w') = Ok (Navigate "/auth")).
Proof.
  simpl.
  assert (Hrun : handleLogout w =
                 (Ok (false, "/auth"), snd (getAuthToken (snd (clearAuth w))))).
  { unfold handleLogout, bind at 1.
    destruct (clearAuth_never_throws w) as [[] Hc].
    destruct (clearAuth w) as [rc wc] eqn:Hcw. simpl in Hc. subst rc. simpl.
    unfold bind. rewrite isAuthenticated_run. unfold authenticated.
    pose proof (clearAuth_then_getAuthToken w) as Hg. rewrite Hcw in Hg.
    simpl in Hg.
    assert (Hnone : token_of_view (token_view wc) = None)
      by (rewrite getAuthToken_result in Hg; congruence).
    by rewrite Hnone. }
  rewrite Hrun. simpl.
  set (w' := snd (getAuthToken (snd (clearAuth w)))).
  assert (Hauth : authenticated w' = false).
  { unfold authenticated, w'. rewrite getAuthToken_keeps_view.
    pose proof (clearAuth_then_getAuthToken w) as Hg.
    assert (Hnone : token_of_view (token_view (snd (clearAuth w))) = None)
      by (rewrite getAuthToken_result in Hg; congruence).
    by rewrite Hnone. }
  assert (Huser : stored_user w' = JNull).
  { rewrite (stored_user_view w' (snd (clearAuth w)))
      by apply getAuthToken_keeps_user_view.
    unfold stored_user. by rewrite clearAuth_then_getUser. }
  split; [done|]. split.
  { unfold NavigationBar, bind. rewrite getUser_run, Huser. done. }
  split; [done|]. split; [done|].
  intros Hg. rewrite route_element_result.
  destruct (route_guard r); [done| |]; unfold role_guard; by rewrite Hauth.
Qed.

End ShellFacts.

(** * Properties of the login and registration handlers *)

Section SubmitFacts.
Context `{Runtime}.
Variable exn_message : Exn -> string.

Lemma setAuthToken_run token w :
  setAuthToken token w = (Ok tt, snd (setAuthToken token w)).
Proof.
  destruct (setAuthToken_never_throws token w) as [[] Hr].
  destruct (setAuthToken token w). simpl in *. by subst.
Qed.

Lemma setUser_run user w : setUser user w = (Ok tt, snd (setUser user w)).
Proof.
  destruct (setUser_never_throws user w) as [[] Hr].
  destruct (setUser user w). simpl in *. by subst.
Qed.

Lemma setUser_token_view user w :
  token_view (snd (setUser user w)) = token_view w.
Proof.
  unfold setUser, setUser_try, token_view. unfold_monad.
  destruct (JSON_stringify user) as [text|e]; simpl; [|done].
  destruct (blocked (localStorage w)) eqn:Hb; simpl; [by rewrite Hb|].
  destruct (fits (localStorage w) _); simpl; [|by rewrite Hb].
  destruct (mobile_agent (userAgent w)); simpl; [|by rewrite lookup_insert_ne].
  destruct (blocked (sessionStorage w)) eqn:Hsb; simpl;
    [by rewrite Hsb, lookup_insert_ne|].
  destruct (fits (sessionStorage w) _); simpl;
    rewrite ?Hsb, ?lookup_insert_ne by done; done.
Qed.

Lemma setUser_local_flags user w :
  blocked (localStorage (snd (setUser user w))) = blocked (localStorage w) /\
  fits (localStorage (snd (setUser user w))) = fits (localStorage w).
Proof.
  unfold setUser, setUser_try. unfold_monad. crunch; by split.
Qed.

Lemma setAuthToken_local_flags token w :
  blocked (localStorage (snd (setAuthToken token w))) = blocked (localStorage w) /\
  fits (localStorage (snd (setAuthToken token w))) = fits (localStorage w).
Proof.
  unfold setAuthToken, setAuthToken_try. unfold_monad. crunch; by split.
Qed.

Lemma setAuthToken_stores t w :
  t <> "" ->
  blocked (localStorage w) = false ->
  fits (localStorage w) (<["token" := t]> (items (localStorage w))) = true ->
  token_of_view (token_view (snd (setAuthToken (JStr t) w))) = Some t.
Proof.
  intros Hne Hb Hfit.
  assert (Hnb : String.eqb t "" = false) by (by apply String.eqb_neq).
  unfold setAuthToken, setAuthToken_try, token_of_view, token_view. simpl.
  rewrite Hnb. unfold_monad. simpl. rewrite Hb, Hfit. simpl.
  destruct (mobile_agent (userAgent w)); simpl.
  - destruct (blocked (sessionStorage w)); simpl;
      [| destruct (fits (sessionStorage w) _); simpl ];
      rewrite ?Hb, ?lookup_insert_eq; simpl; rewrite ?Hnb; done.
  - rewrite ?Hb, ?lookup_insert_eq. simpl. rewrite ?Hnb. done.
Qed.

Lemma setUser_stores user text w :
  JSON_stringify user = Ok text -> text <> "" ->
  JSON_parse text = Ok user ->
  blocked (localStorage w) = false ->
  fits (localStorage w) (<["user" := text]> (items (localStorage w))) = true ->
  stored_user (snd (setUser user w)) = user.
Proof.
  intros Hs Hne Hp Hb Hfit.
  assert (Hnb : String.eqb text "" = false) by (by apply String.eqb_neq).
  unfold stored_user, setUser, setUser_try, getUser, getUser_try. unfold_monad.
  rewrite Hs. simpl. rewrite Hb, Hfit. simpl.
  destruct (mobile_agent (userAgent w)); simpl.
  - destruct (blocked (sessionStorage w)); simpl;
      [| destruct (fits (sessionStorage w) _); simpl ];
      rewrite ?Hb, ?lookup_insert_eq; simpl; rewrite ?Hnb; simpl;
      rewrite ?Hnb, ?Hp; done.
  - rewrite ?Hb, ?lookup_insert_eq. simpl. rewrite ?Hnb. simpl.
    rewrite ?Hnb, ?Hp. done.
Qed.

(** The [try] block of a submit handler on a response that has the
    [token] and [user] properties. *)
Lemma submit_try_run success data token user w :
  get_prop data "token" = Ok token ->
  get_prop data "user" = Ok user ->
  let w2 := snd (setUser user (snd (setAuthToken token w))) in
  submit_try success data w =
    (Ok ([ToastSuccess success], Some (authenticated (snd (getAuthToken w2))),
         match get_prop user "role" with
         | Ok role => Ok (role_path role)
         | Throw e => Throw e
         end),
     snd (getAuthToken (snd (getAuthToken w2)))).
Proof.
  intros Htok Huser. simpl. unfold submit_try. rewrite Htok, Huser.
  unfold bind at 1. rewrite setAuthToken_run.
  unfold bind at 1. rewrite setUser_run.
  unfold bind at 1. rewrite getAuthToken_run.
  unfold bind at 1. rewrite isAuthenticated_run.
  by destruct (get_prop user "role").
Qed.

Lemma submitted_views token user w :
  let w2 := snd (setUser user (snd (setAuthToken token w))) in
  let w' := snd (getAuthToken (snd (getAuthToken w2))) in
  token_view w' = token_view (snd (setAuthToken token w)) /\
  user_view w' = user_view w2 /\
  token_view (snd (getAuthToken w2)) = token_view (snd (setAuthToken token w)).
Proof.
  simpl. rewrite !getAuthToken_keeps_view, !getAuthToken_keeps_user_view.
  by rewrite setUser_token_view.
Qed.

Lemma role_path_cases role :
  (role = JStr "company" /\ role_path role = "/company") \/
  (role = JStr "college_admin" /\ role_path role = "/college") \/
  role_path role = "/dashboard".
Proof.
  destruct role as [| | | |r| |]; simpl; auto.
  destruct (String.eqb r "company") eqn:E1.
  { apply String.eqb_eq in E1. subst. auto. }
  destruct (String.eqb r "college_admin") eqn:E2.
  { apply String.eqb_eq in E2. subst. auto. }
  auto.
Qed.

(** X17.  A login, or registration, that the backend answers with a
    non-empty token and a user, on a browser whose [localStorage] takes the
    writes: one success toast, [isAuth] set to true, the token and the user
    are what the accessors return afterwards, and the handler navigates to
    the route of the user's role, whose guard then renders its page. *)
Theorem submit_lands_on_an_open_page success fallback a t user role text onLine w :
  let s := fst (submit exn_message success fallback (Fulfilled a) onLine w) in
  let w' := snd (submit exn_message success fallback (Fulfilled a) onLine w) in
  get_prop (ans_data a) "token" = Ok (JStr t) -> t <> "" ->
  get_prop (ans_data a) "user" = Ok user ->
  get_prop user "role" = Ok role ->
  JSON_stringify user = Ok text -> text <> "" -> JSON_parse text = Ok user ->
  blocked (localStorage w) = false ->
  (forall m, fits (localStorage w) m = true) ->
  s = mkSubmitted [ToastSuccess success] (Some (role_path role)) (Some true) false /\
  fst (getAuthToken w') = Ok (Some t) /\
  fst (getUser w') = Ok user /\
  exists r, route_at (role_path role) = Some r /\
            fst (route_element true r w') = Ok (Page (route_page r)).
Proof.
  intros s w' Htok Hne Huser Hrole Hs Htne Hp Hb Hfit. subst s w'.
  unfold submit. rewrite (submit_try_run _ _ _ _ w Htok Huser), Hrole. simpl.
  destruct (submitted_views (JStr t) user w) as (Htv & Huv & Htv3).
  set (w1 := snd (setAuthToken (JStr t) w)) in *.
  set (w2 := snd (setUser user w1)) in *.
  set (w' := snd (getAuthToken (snd (getAuthToken w2)))) in *.
  destruct (setAuthToken_local_flags (JStr t) w) as [Hb1 Hf1]. fold w1 in Hb1, Hf1.
  assert (Htoken : token_of_view (token_view w1) = Some t).
  { apply setAuthToken_stores; auto. }
  assert (Hstored : stored_user w2 = user).
  { apply (setUser_stores user text w1); auto.
    - congruence.
    - rewrite Hf1. apply Hfit. }
  assert (Hnb : String.eqb t "" = false) by (by apply String.eqb_neq).
  assert (Hauth3 : authenticated (snd (getAuthToken w2)) = true).
  { unfold authenticated. rewrite Htv3, Htoken. simpl. by rewrite Hnb. }
  assert (Hauth : authenticated w' = true).
  { unfold authenticated. rewrite Htv, Htoken. simpl. by rewrite Hnb. }
  assert (Huser' : stored_user w' = user).
  { by rewrite (stored_user_view w' w2 Huv). }
  rewrite Hauth3. split; [done|].
  split; [by rewrite getAuthToken_result, Htv, Htoken|].
  split; [by rewrite getUser_run, Huser'|].
  destruct (role_path_cases role) as [[-> ->] | [[-> ->] | ->]].
  - eexists. split; [reflexivity|]. rewrite route_element_result. simpl.
    unfold role_guard. rewrite Hauth, Huser'. simpl.
    destruct user; try discriminate. simpl in *.
    injection Hrole as ->. done.
  - eexists. split; [reflexivity|]. rewrite route_element_result. simpl.
    unfold role_guard. rewrite Hauth, Huser'. simpl.
    destruct user; try discriminate. simpl in *.
    injection Hrole as ->. done.
  - eexists. split; [reflexivity|]. rewrite route_element_result. simpl.
    by rewrite Hauth.
Qed.

(** X18.  A submit handler reports success without a session: when the
    response carries a user but a falsy token, or when [localStorage] is
    disabled, it still shows the success toast and navigates to the route
    of the user's role, although [isAuth] was set to false; that route then
    redirects to [/auth]. *)
Theorem submit_succeeds_without_session success fallback a token user role onLine w :
  let s := fst (submit exn_message success fallback (Fulfilled a) onLine w) in
  let w' := snd (submit exn_message success fallback (Fulfilled a) onLine w) in
  get_prop (ans_data a) "token" = Ok token ->
  get_prop (ans_data a) "user" = Ok user ->
  get_prop user "role" = Ok role ->
  truthy token = false \/ blocked (localStorage w) = true ->
  s = mkSubmitted [ToastSuccess success] (Some (role_path role)) (Some false) false /\
  fst (isAuthenticated w') = Ok false /\
  exists r, route_at (role_path role) = Some r /\
            fst (route_element false r w') = Ok (Navigate "/auth").
Proof.
  intros s w' Htok Huser Hrole Hno. subst s w'.
  unfold submit. rewrite (submit_try_run _ _ _ _ w Htok Huser), Hrole. simpl.
  destruct (submitted_views token user w) as (Htv & Huv & Htv3).
  set (w1 := snd (setAuthToken token w)) in *.
  set (w2 := snd (setUser user w1)) in *.
  set (w' := snd (getAuthToken (snd (getAuthToken w2)))) in *.
  assert (Hnone : token_of_view (token_view w1) = None).
  { destruct Hno as [Hf | Hb].
    - pose proof (setAuthToken_falsy_then_getAuthToken token w Hf) as Hg.
      fold w1 in Hg. rewrite getAuthToken_result in Hg. congruence.
    - destruct (setAuthToken_local_flags token w) as [Hb1 _]. fold w1 in Hb1.
      unfold token_of_view, token_view. by rewrite Hb1, Hb. }
  assert (Hauth3 : authenticated (snd (getAuthToken w2)) = false).
  { unfold authenticated. by rewrite Htv3, Hnone. }
  assert (Hauth : authenticated w' = false).
  { unfold authenticated. by rewrite Htv, Hnone. }
  rewrite Hauth3. split; [done|].
  split; [by rewrite isAuthenticated_run, Hauth|].
  destruct (role_path_cases role) as [[-> ->] | [[-> ->] | ->]];
    (eexists; split; [reflexivity|]); rewrite route_element_result; simpl;
    unfold role_guard; by rewrite Hauth.
Qed.

(** X19.  A response with a token but no user: the handler stores the
    token and shows the success toast, then fails on [user.role]; the
    [catch] adds an error toast that reads as a network error, and there is
    no navigation.  With a non-empty token and a [localStorage] that takes
    the write, the visitor is logged in all the same. *)
Theorem submit_without_user_toasts_twice success fallback a t user onLine w :
  let s := fst (submit exn_message success fallback (Fulfilled a) onLine w) in
  let w' := snd (submit exn_message success fallback (Fulfilled a) onLine w) in
  get_prop (ans_data a) "token" = Ok (JStr t) -> t <> "" ->
  get_prop (ans_data a) "user" = Ok user ->
  user = JUndefined \/ user = JNull ->
  exn_message TypeError <> "" ->
  blocked (localStorage w) = false ->
  fits (localStorage w) (<["token" := t]> (items (localStorage w))) = true ->
  s = mkSubmitted
        [ToastSuccess success;
         ToastError (JStr ("Network error: " ++ exn_message TypeError))]
        None (Some true) false /\
  fst (getAuthToken w') = Ok (Some t).
Proof.
  intros s w' Htok Hne Huser Hnouser Hmsg Hb Hfit. subst s w'.
  unfold submit. rewrite (submit_try_run _ _ _ _ w Htok Huser).
  destruct (submitted_views (JStr t) user w) as (Htv & Huv & Htv3).
  set (w1 := snd (setAuthToken (JStr t) w)) in *.
  set (w2 := snd (setUser user w1)) in *.
  set (w' := snd (getAuthToken (snd (getAuthToken w2)))) in *.
  assert (Htoken : token_of_view (token_view w1) = Some t).
  { apply setAuthToken_stores; auto. }
  assert (Hnb : String.eqb t "" = false) by (by apply String.eqb_neq).
  assert (Hauth3 : authenticated (snd (getAuthToken w2)) = true).
  { unfold authenticated. rewrite Htv3, Htoken. simpl. by rewrite Hnb. }
  assert (Hrole : get_prop user "role" = Throw TypeError).
  { by destruct Hnouser as [-> | ->]. }
  rewrite Hrole, Hauth3. simpl.
  assert (Hmb : String.eqb (exn_message TypeError) "" = false)
    by (by apply String.eqb_neq).
  unfold errorMessage. simpl. rewrite Hmb. simpl.
  split; [done|].
  by rewrite getAuthToken_result, Htv, Htoken.
Qed.

End SubmitFacts.

(** ** The scenarios, evaluated *)

#[local] Existing Instance scenario_runtime.

(** C1, witness: the dashboard statistics fetched online are served from
    the cache half an hour later, offline. *)
Lemma offline_get_served_from_cache_witness :
  fst (axiosInstance online_ok get_stats browser) =
    Resolved (response_of (prepared browser get_stats) (mkAnswer 200 stats_payload)) /\
  fst (axiosInstance offline_later get_stats
         (snd (axiosInstance online_ok get_stats browser))) =
    Resolved (mkResponse stats_payload 200 None) /\
  dispatched (new_events (snd (axiosInstance online_ok get_stats browser))
                (snd (axiosInstance offline_later get_stats
                        (snd (axiosInstance online_ok get_stats browser))))) = [].
Proof.
  split; [vm_compute; reflexivity|].
  apply (offline_get_served_from_cache online_ok offline_later get_stats get_stats
           browser (snd (axiosInstance online_ok get_stats browser))
           (response_of (prepared browser get_stats) (mkAnswer 200 stats_payload))
           (json_text (JObj [("data", stats_payload);
                             ("timestamp", JNum stats_written_at)]))).
  - reflexivity.
  - reflexivity.
  - reflexivity.
  - reflexivity.
  - vm_compute. reflexivity.
  - reflexivity.
  - reflexivity.
  - reflexivity.
  - reflexivity.
  - vm_compute. discriminate.
  - reflexivity.
  - vm_compute. reflexivity.
  - reflexivity.
  - reflexivity.
  - reflexivity.
  - vm_compute. reflexivity.
Defined.

(** C1, counterexample to the claim as stated: [GET /auth/me] succeeds
    online and its cache entry is written; the same GET half an hour
    later, offline, is not answered from the cache: it is dispatched and
    rejected with the network's error. *)
Lemma offline_get_to_auth_endpoint_not_cached :
  let w1 := snd (axiosInstance online_ok get_me browser) in
  let w2 := snd (axiosInstance offline_later get_me w1) in
  method get_me = "get" /\
  onLine_request (online_ok O) = true /\ onLine_response (online_ok O) = true /\
  fst (axiosInstance online_ok get_me browser) =
    Resolved (response_of (prepared browser get_me) (mkAnswer 200 stats_payload)) /\
  items (localStorage w1) !! cache_item get_me =
    Some (json_text (JObj [("data", stats_payload);
                           ("timestamp", JNum stats_written_at)])) /\
  onLine_request (offline_later O) = false /\
  now_request (offline_later O) - now_response (online_ok O) < DAY_MS /\
  fst (axiosInstance offline_later get_me w1) <>
    Resolved (mkResponse stats_payload 200 None) /\
  fst (axiosInstance offline_later get_me w1) =
    Rejected (AxiosError "Network Error" (prepared w1 get_me)
                         (Some "ERR_NETWORK") None) /\
  dispatched (new_events w1 w2) = [prepared w1 get_me].
Proof.
  vm_compute. repeat split; try reflexivity. discriminate.
Qed.

(** C2, the failing scenario: on a freshly loaded client, two requests in
    a row are each answered 500 at every attempt.  The first is sent 4 times
    with 1000 ms before each retry; the second is sent once and rejected at
    once, because the first used up the shared counter. *)
Theorem retry_budget_is_shared :
  let w1 := snd (axiosInstance server_down get_stats browser) in
  let w2 := snd (axiosInstance server_down get_stats w1) in
  passes server_down get_stats /\ always_transient server_down /\
  retries (retryConfig browser) = 3%nat /\
  List.length (dispatched (new_events browser w1)) = 4%nat /\
  delays (new_events browser w1) = [1000; 1000; 1000] /\
  retries (retryConfig w1) = 0%nat /\
  List.length (dispatched (new_events w1 w2)) = 1%nat /\
  delays (new_events w1 w2) = [] /\
  exists error, fst (axiosInstance server_down get_stats w1) = Rejected error /\
                retryCondition error = true.
Proof.
  split; [intros j; by left|].
  split; [intros j c; by eexists _, _, _|].
  vm_compute. repeat split; try reflexivity. eexists. split; reflexivity.
Qed.

(** C3, witness: logged in, the dashboard request carries the token. *)
Lemma token_attached_to_every_dispatch_witness :
  fst (getAuthToken logged_in) = Ok (Some "abc") /\
  Forall (fun c => headers c !! "Authorization" = Some (bearer "abc"))
         (dispatched (new_events logged_in
                        (snd (axiosInstance online_ok get_stats logged_in)))) /\
  dispatched (new_events logged_in
                (snd (axiosInstance online_ok get_stats logged_in))) <> [].
Proof.
  split; [reflexivity|].
  destruct (token_attached_to_every_dispatch online_ok get_stats logged_in "abc")
    as [Hall Hsome].
  - reflexivity.
  - discriminate.
  - split; [exact Hall|]. apply Hsome. left. reflexivity.
Defined.

(** C3, counterexample to the claim as stated: with the token ["abc"]
    stored, the request to the authentication endpoint [/auth/login] is
    dispatched with the header [Authorization: Bearer abc]. *)
Lemma bearer_sent_to_auth_endpoint :
  let w' := snd (axiosInstance online_ok post_login logged_in) in
  fst (getAuthToken logged_in) = Ok (Some "abc") /\
  isAuthEndpoint post_login = true /\
  exists c, dispatched (new_events logged_in w') = [c] /\
            url c = "/auth/login" /\
            headers c !! "Authorization" = Some "Bearer abc" /\
            headers c !! "Authorization" <> None.
Proof.
  cbv zeta. split; [reflexivity|]. split; [reflexivity|].
  eexists. split; [vm_compute; reflexivity|].
  split; [reflexivity|]. split; [vm_compute; reflexivity|].
  vm_compute. discriminate.
Qed.

(** Offline with nothing cached, on a browser whose storage can be read:
    the offline error. *)
Lemma offline_without_cache_fails_witness :
  fst (axiosInstance offline_later get_stats browser) = Rejected OfflineNoCache /\
  isOffline OfflineNoCache = true /\
  message OfflineNoCache =
    Some "No internet connection and no cached data available" /\
  dispatched (new_events browser
                (snd (axiosInstance offline_later get_stats browser))) = [].
Proof.
  apply (offline_without_cache_fails offline_later get_stats browser).
  - reflexivity.
  - reflexivity.
  - reflexivity.
  - left. reflexivity.
Defined.


(** C5, witness: offline, the login request is dispatched all the same. *)
Lemma auth_endpoint_always_dispatched_witness :
  onLine_request (offline_later O) = false /\
  fst (request_interceptor (offline_later O) post_login browser) =
    Ok (inl (prepared browser post_login)) /\
  from_network (fst (axiosInstance offline_later post_login browser)).
Proof.
  split; [reflexivity|].
  destruct (auth_endpoint_always_dispatched offline_later post_login browser)
    as (Hpass & _ & Hnet).
  - reflexivity.
  - split; [apply Hpass | exact Hnet].
Defined.

(** C6, witness: a successful POST leaves the storage empty. *)
Lemma non_get_writes_no_cache_witness :
  localStorage (snd (axiosInstance online_ok post_login browser)) = empty_storage /\
  sessionStorage (snd (axiosInstance online_ok post_login browser)) = empty_storage /\
  fst (axiosInstance online_ok post_login browser) <> Pending.
Proof.
  apply (non_get_writes_no_cache online_ok post_login browser).
  vm_compute. discriminate.
Defined.

(** C9, witness: a cached GET leaves the token where it was. *)
Lemma request_preserves_session_witness :
  items (localStorage (snd (axiosInstance online_ok get_stats logged_in))) !! "token" =
    Some "abc" /\
  items (localStorage (snd (axiosInstance online_ok get_stats logged_in))) !! "user" =
    None.
Proof.
  destruct (request_preserves_session online_ok get_stats logged_in)
    as (Hother & _ & _ & _).
  split.
  - rewrite (Hother "token"); [reflexivity|]. vm_compute. discriminate.
  - rewrite (Hother "user"); [reflexivity|]. vm_compute. discriminate.
Defined.

(** C10, witness: [setAuthToken(null)] after a login. *)
Lemma setAuthToken_falsy_clears_witness :
  items (localStorage logged_in) !! "token" = Some "abc" /\
  fst (getAuthToken (snd (setAuthToken JNull logged_in))) = Ok None /\
  fst (isAuthenticated (snd (setAuthToken JNull logged_in))) = Ok false /\
  items (localStorage (snd (setAuthToken JNull logged_in))) !! "token" = None.
Proof.
  split; [reflexivity|].
  destruct (setAuthToken_falsy_clears JNull logged_in)
    as (_ & Hget & Hauth & Hlocal & _).
  - reflexivity.
  - split; [exact Hget|]. split; [exact Hauth|].
    rewrite Hlocal by reflexivity. apply lookup_delete_eq.
Defined.

(** C7, witness: logged in, then [clearAuth]; the token is gone at the
    third read as at the first, and the dashboard request, issued without
    an Authorization header, is dispatched without one. *)
Lemma clearAuth_forgets_token_witness :
  let wn := after_reads 2 (snd (clearAuth logged_in)) in
  let sent_configs :=
    dispatched (new_events wn (snd (axiosInstance online_ok get_stats wn))) in
  fst (getAuthToken logged_in) = Ok (Some "abc") /\
  headers get_stats !! "Authorization" = None /\
  fst (getAuthToken wn) = Ok None /\
  Forall (fun c => headers c !! "Authorization" = None) sent_configs /\
  exists rest, sent_configs = set_retry get_stats :: rest.
Proof.
  cbv zeta. split; [reflexivity|]. split; [reflexivity|].
  destruct (clearAuth_forgets_token online_ok get_stats logged_in 2)
    as (_ & Hget & _ & Hnone & Hsent).
  split; [exact Hget|]. split.
  - apply Hnone. reflexivity.
  - apply Hsent. left. reflexivity.
Defined.

(** C7, counterexample to the claim as stated.  Logged in, the dashboard
    request is dispatched with the bearer and answered 500, so the response
    interceptor schedules a retry of the config of the error, which carries
    the header.  The user logs out during the delay: [clearAuth] runs and
    [getAuthToken] returns null.  The retry is then issued: the next three
    requests that leave the client all carry [Authorization: Bearer abc]. *)
Lemma retry_after_logout_keeps_bearer :
  let c := prepared logged_in get_stats in
  let w1 := snd (attempt (server_down O) get_stats logged_in) in
  let w2 := snd (clearAuth w1) in
  let w3 := snd (axiosInstance (fun i => server_down (S i)) c w2) in
  items (localStorage logged_in) !! "token" = Some "abc" /\
  fst (attempt (server_down O) get_stats logged_in) = RetryWith c /\
  fst (clearAuth w1) = Ok tt /\
  fst (getAuthToken w2) = Ok None /\
  dispatched (new_events w2 w3) = [c; c; c] /\
  headers c !! "Authorization" = Some "Bearer abc".
Proof.
  vm_compute. repeat split; reflexivity.
Qed.

(** C7, the scenario: logged in, then [clearAuth]; the token is gone and
    the dashboard request goes out with the headers it was given. *)
Example clearAuth_after_login :
  fst (getAuthToken logged_in) = Ok (Some "abc") /\
  fst (getAuthToken (snd (clearAuth logged_in))) = Ok None /\
  exists c, dispatched (new_events (snd (clearAuth logged_in))
                          (snd (axiosInstance online_ok get_stats
                                  (snd (clearAuth logged_in))))) = [c] /\
            headers c !! "Authorization" = None.
Proof.
  split; [reflexivity|]. split; [reflexivity|].
  eexists. split; [vm_compute; reflexivity|]. vm_compute. reflexivity.
Qed.


(** C8, the scenario: with the storage disabled the accessors return and
    warn, and a GET still resolves with the backend's answer; its trace
    shows the two warnings around the dispatch. *)
Example storage_disabled :
  let w := storage_disabled_browser in
  setAuthToken (JStr "abc") w =
    (Ok tt, mkWorld disabled_storage disabled_storage (userAgent browser)
                    initial_retryConfig [Warn storage_warning SecurityError]) /\
  fst (getAuthToken w) = Ok None /\
  fst (getUser w) = Ok JNull /\
  trace (snd (axiosInstance online_ok get_stats w)) =
    [Warn storage_warning SecurityError;
     Dispatch (prepared w get_stats);
     Warn cache_warning SecurityError].
Proof. vm_compute. repeat split; reflexivity. Qed.

(** The cache read of the offline branch is outside every try/catch: with
    the storage disabled, an offline GET is rejected with the exception
    that [getItem] raised. *)
Example offline_read_unguarded :
  fst (axiosInstance offline_later get_stats storage_disabled_browser) =
    Rejected (Uncaught SecurityError).
Proof. vm_compute. reflexivity. Qed.

(** C1, a second scenario: the statistics arrive at the second attempt,
    after a 500; the entry written then is served offline. *)
Example cached_after_retry :
  let w1 := snd (axiosInstance flaky get_stats browser) in
  delays (new_events browser w1) = [1000] /\
  fst (axiosInstance flaky get_stats browser) =
    Resolved (response_of (prepared browser get_stats) (mkAnswer 200 stats_payload)) /\
  fst (axiosInstance offline_later get_stats w1) =
    Resolved (mkResponse stats_payload 200 None).
Proof. vm_compute. repeat split; reflexivity. Qed.

(** ** Further scenarios, evaluated *)

#[local] Remove Hints scenario_runtime : typeclass_instances.
#[local] Existing Instance portal_runtime.

(** X1, witness. *)
Lemma setAuthToken_then_getAuthToken_witness :
  fst (getAuthToken (snd (setAuthToken (JStr "abc") browser))) = Ok (Some "abc") /\
  fst (isAuthenticated (snd (setAuthToken (JStr "abc") browser))) = Ok true.
Proof.
  destruct (setAuthToken_then_getAuthToken "abc" browser) as (Hg & Ha & _).
  - discriminate.
  - reflexivity.
  - reflexivity.
  - by split.
Defined.

(** X2, witness: on the phone the session copy answers. *)
Lemma session_backup_is_mobile_only_witness :
  mobile_agent (userAgent phone) = true /\
  fst (getAuthToken (snd (localStorage_removeItem "token"
                            (snd (setAuthToken (JStr "abc") phone))))) =
    Ok (Some "abc").
Proof.
  split; [reflexivity|].
  apply (session_backup_is_mobile_only "abc" phone).
  - discriminate.
  - reflexivity.
  - reflexivity.
  - reflexivity.
  - reflexivity.
Defined.

(** X3, witness. *)
Lemma setUser_then_getUser_witness :
  fst (getUser (snd (setUser company_user browser))) = Ok company_user.
Proof.
  destruct (setUser_then_getUser company_user (json_text company_user) browser)
    as [Hu _].
  - reflexivity.
  - vm_compute. discriminate.
  - vm_compute. reflexivity.
  - reflexivity.
  - reflexivity.
  - exact Hu.
Defined.

(** X4, witness: the statistics cached before the logout are served
    offline after it. *)
Lemma clearAuth_keeps_cached_answers_witness :
  fst (axiosInstance offline_later get_stats
         (snd (clearAuth (snd (axiosInstance online_ok get_stats logged_in))))) =
    Resolved (mkResponse stats_payload 200 None).
Proof.
  destruct (clearAuth_keeps_cached_answers offline_later get_stats
              (snd (axiosInstance online_ok get_stats logged_in))) as [Heq _].
  - reflexivity.
  - reflexivity.
  - rewrite Heq. vm_compute. reflexivity.
Defined.

(** X6, witness: a 404 is passed through at once. *)
Lemma non_transient_failure_is_passed_through_witness :
  dispatched (new_events browser (snd (axiosInstance not_found get_stats browser))) =
    [prepared browser get_stats] /\
  delays (new_events browser (snd (axiosInstance not_found get_stats browser))) = [] /\
  retryConfig (snd (axiosInstance not_found get_stats browser)) = initial_retryConfig.
Proof.
  destruct (non_transient_failure_is_passed_through not_found get_stats browser
              "Request failed with status code 404" (Some "ERR_BAD_REQUEST")
              (Some (mkAnswer 404 JNull))) as (_ & Hd & Hdl & Hrc & _).
  - left. reflexivity.
  - reflexivity.
  - reflexivity.
  - by repeat split.
Defined.

(** X7, witness. *)
Lemma offline_request_stays_local_witness :
  dispatched (new_events browser
                (snd (axiosInstance offline_later get_stats browser))) = [] /\
  localStorage (snd (axiosInstance offline_later get_stats browser)) =
    localStorage browser.
Proof.
  destruct (offline_request_stays_local offline_later get_stats browser)
    as (Hd & _ & _ & Hl & _).
  - reflexivity.
  - reflexivity.
  - by split.
Defined.

(** X8, witness: a cache entry that is not JSON. *)
Lemma unreadable_cache_entry_rejects_witness :
  fst (axiosInstance offline_later get_stats corrupted_cache) =
    Rejected (Uncaught SyntaxError).
Proof.
  apply (unreadable_cache_entry_rejects offline_later get_stats corrupted_cache
           "<html>" SyntaxError).
  - reflexivity.
  - reflexivity.
  - reflexivity.
  - vm_compute. reflexivity.
  - discriminate.
  - left. reflexivity.
Defined.

(** X9, witness: the [/auth/me] response is cached as well. *)
Lemma cached_get_replaces_one_entry_witness :
  items (localStorage (snd (axiosInstance online_ok get_me logged_in))) =
    <[cache_item get_me :=
        json_text (JObj [("data", stats_payload);
                         ("timestamp", JNum stats_written_at)])]>
      (items (localStorage logged_in)) /\
  sessionStorage (snd (axiosInstance online_ok get_me logged_in)) =
    sessionStorage logged_in.
Proof.
  apply (cached_get_replaces_one_entry online_ok get_me logged_in
           (response_of (prepared logged_in get_me) (mkAnswer 200 stats_payload))).
  - reflexivity.
  - vm_compute. reflexivity.
  - left. reflexivity.
  - reflexivity.
  - reflexivity.
  - reflexivity.
  - reflexivity.
Defined.

(** X10, witness: the answer arrives, the probe has dropped, nothing is
    cached. *)
Lemma no_cache_write_while_probe_offline_witness :
  fst (axiosInstance probe_drops get_stats browser) =
    Resolved (response_of (prepared browser get_stats) (mkAnswer 200 stats_payload)) /\
  localStorage (snd (axiosInstance probe_drops get_stats browser)) =
    localStorage browser.
Proof.
  split; [vm_compute; reflexivity|].
  apply (no_cache_write_while_probe_offline probe_drops get_stats browser).
  intros j. reflexivity.
Defined.

(** X11, witness: after three retries the fourth 500 is what the caller
    gets. *)
Lemma rejection_is_the_last_error_witness :
  exists a,
    reply (server_down 3) =
      Failed "Request failed with status code 500" (Some "ERR_BAD_RESPONSE") a /\
    retries (retryConfig (snd (axiosInstance server_down get_stats browser))) = O.
Proof.
  destruct (rejection_is_the_last_error server_down get_stats browser
              "Request failed with status code 500"
              (prepared browser get_stats) (Some "ERR_BAD_RESPONSE")
              (Some (response_of (prepared browser get_stats) (mkAnswer 500 JNull))))
    as (a & Hrep & _).
  - vm_compute. reflexivity.
  - exists a. split; [exact Hrep | reflexivity].
Defined.

(** X12, witness: without a token [/company] redirects to the login. *)
Lemma unauthenticated_visitor_is_sent_to_login_witness :
  fst (route_element false (mkRoute "/company" (RoleProtected ["company"])
                                    "CompanyPortal") browser) =
    Ok (Navigate "/auth").
Proof.
  destruct (unauthenticated_visitor_is_sent_to_login
              (mkRoute "/company" (RoleProtected ["company"]) "CompanyPortal")
              browser) as [Hnav | [Hpage _]].
  - vm_compute. tauto.
  - reflexivity.
  - exact Hnav.
  - vm_compute in Hpage. discriminate.
Defined.

(** X13, witness: logged in, [/] redirects to the dashboard, which
    renders. *)
Lemma redirects_end_on_a_page_witness :
  exists p r',
    fst (route_element true (mkRoute "/" Public "LandingPage") logged_in) =
      Ok (Navigate p) /\
    route_at p = Some r' /\
    route_page r' = "StudentDashboard".
Proof.
  destruct (redirects_end_on_a_page (mkRoute "/" Public "LandingPage") logged_in)
    as (_ & [Hpage | (p & r' & Hnav & Hat & Hel)]).
  - vm_compute. tauto.
  - vm_compute in Hpage. discriminate.
  - exists p, r'. split; [exact Hnav|]. split; [exact Hat|].
    vm_compute in Hnav. injection Hnav as <-.
    vm_compute in Hat. injection Hat as <-. reflexivity.
Defined.

(** X14, witness: the company user is admitted to the company portal. *)
Lemma RoleProtectedRoute_admits_allowed_roles_witness :
  fst (RoleProtectedRoute ["company"] (Page "CompanyPortal") company_session) =
    Ok (Page "CompanyPortal").
Proof.
  apply (RoleProtectedRoute_admits_allowed_roles ["company"] "CompanyPortal"
           company_session).
  split; [reflexivity|].
  exists company_user, "company".
  split; [vm_compute; reflexivity|]. split; [reflexivity|]. by left.
Defined.

(** X15, witness: the company user's only link opens the portal. *)
Lemma nav_items_lead_to_pages_witness :
  fst (NavigationBar company_session) =
    Ok (Some [mkNavItem "Company Portal" "/company" ["company"]]) /\
  exists r, route_at "/company" = Some r /\
            fst (route_element true r company_session) = Ok (Page (route_page r)).
Proof.
  split; [vm_compute; reflexivity|].
  apply (nav_items_lead_to_pages company_session
           [mkNavItem "Company Portal" "/company" ["company"]]
           (mkNavItem "Company Portal" "/company" ["company"])).
  - vm_compute. reflexivity.
  - reflexivity.
  - by left.
Defined.

(** X16, witness: after the logout the dashboard redirects to the login. *)
Lemma logout_closes_every_route_witness :
  fst (handleLogout company_session) = Ok (false, "/auth") /\
  fst (route_element false (mkRoute "/dashboard" Protected "StudentDashboard")
                     (snd (handleLogout company_session))) = Ok (Navigate "/auth").
Proof.
  destruct (logout_closes_every_route company_session
              (mkRoute "/dashboard" Protected "StudentDashboard"))
    as (Hout & _ & _ & _ & Hguard).
  split; [exact Hout|]. apply Hguard. discriminate.
Defined.

(** X17, witness: the company user logs in and lands on the portal. *)
Lemma submit_lands_on_an_open_page_witness :
  fst (handleLogin type_error_text (Fulfilled login_answer) true browser) =
    mkSubmitted [ToastSuccess "Login successful!"] (Some "/company") (Some true) false /\
  exists r, route_at "/company" = Some r /\
            fst (route_element true r
                   (snd (handleLogin type_error_text (Fulfilled login_answer)
                                     true browser))) = Ok (Page (route_page r)).
Proof.
  destruct (submit_lands_on_an_open_page type_error_text
              "Login successful!" "Login failed" login_answer "abc" company_user
              (JStr "company") (json_text company_user) true browser)
    as (Hs & _ & _ & Hroute).
  - reflexivity.
  - discriminate.
  - reflexivity.
  - reflexivity.
  - reflexivity.
  - vm_compute. discriminate.
  - vm_compute. reflexivity.
  - reflexivity.
  - intros m. reflexivity.
  - split; [exact Hs | exact Hroute].
Defined.

(** X18, witness: with the storage disabled the login reports success and
    the portal redirects to the login. *)
Lemma submit_succeeds_without_session_witness :
  fst (handleLogin type_error_text (Fulfilled login_answer) true
                   storage_disabled_browser) =
    mkSubmitted [ToastSuccess "Login successful!"] (Some "/company") (Some false) false /\
  exists r, route_at "/company" = Some r /\
            fst (route_element false r
                   (snd (handleLogin type_error_text (Fulfilled login_answer) true
                                     storage_disabled_browser))) =
              Ok (Navigate "/auth").
Proof.
  destruct (submit_succeeds_without_session type_error_text
              "Login successful!" "Login failed" login_answer (JStr "abc")
              company_user (JStr "company") true storage_disabled_browser)
    as (Hs & _ & Hroute).
  - reflexivity.
  - reflexivity.
  - reflexivity.
  - right. reflexivity.
  - split; [exact Hs | exact Hroute].
Defined.

(** X19, witness: a token and no user. *)
Lemma submit_without_user_toasts_twice_witness :
  toasts (fst (handleLogin type_error_text (Fulfilled token_only_answer) true
                           browser)) =
    [ToastSuccess "Login successful!";
     ToastError (JStr ("Network error: " ++ type_error_text TypeError))] /\
  navigated (fst (handleLogin type_error_text (Fulfilled token_only_answer) true
                              browser)) = None /\
  fst (getAuthToken (snd (handleLogin type_error_text (Fulfilled token_only_answer)
                                      true browser))) = Ok (Some "abc").
Proof.
  destruct (submit_without_user_toasts_twice type_error_text
              "Login successful!" "Login failed" token_only_answer "abc"
              JUndefined true browser) as (Hs & Hg).
  - reflexivity.
  - discriminate.
  - reflexivity.
  - by left.
  - discriminate.
  - reflexivity.
  - reflexivity.
  - unfold handleLogin. rewrite Hs. by repeat split.
Defined.

(** X20, witness: [/college/auth/report] is requested even offline. *)
Lemma any_url_containing_auth_skips_the_cache_witness :
  onLine_request (offline_later O) = false /\
  fst (request_interceptor (offline_later O) get_audit browser) =
    Ok (inl (prepared browser get_audit)).
Proof.
  split; [reflexivity|].
  destruct (any_url_containing_auth_skips_the_cache offline_later get_audit
              "/college" "report" browser O) as [_ Hpass].
  - reflexivity.
  - exact Hpass.
Defined.
